(** * ReSTIR GI temporal reuse pass and DXVK render-target sizing

    A shallow embedding of

    - [src/dxvk/shaders/rtx/pass/rtxdi/restir_gi_temporal_reuse.comp.slang]
      (the compute shader [main], one invocation per pixel), and
    - [src/dxvk/dxvk_framebuffer.cpp]
      ([DxvkRenderTargets::getImageSize], [hasAttachments],
      [renderTargetSize]).

    The shader is written over a scalar interface [Scalar] so that the same
    definitions run on IEEE binary32 ([Binary32], built on [SpecFloat]) and on
    exact extended rationals ([Exact]), the latter being the idealisation in
    which rounding is ignored.  Everything the shader includes but that is
    not part of this file (the RTXDI bridge, utility headers, resource
    bindings) is an operation of the [Externals] and [RtxUtility]
    interfaces. *)

From Stdlib Require Import ZArith QArith Qabs Bool List Lia Lqa.
From Stdlib Require Import Floats.SpecFloat.
Import ListNotations.

Set Implicit Arguments.
Local Open Scope Z_scope.

(* ===================================================================== *)
(** ** Scalars *)
(* ===================================================================== *)

(** The arithmetic the shader performs on [float] values.  [lit n d] is the
    decimal literal [n/d]; [of_int] is the int-to-float conversion;
    [ffinite x] is [!isnan(x) && !isinf(x)]. *)
Class Scalar (F : Type) : Type := {
  lit    : Z -> positive -> F;
  of_int : Z -> F;
  fadd   : F -> F -> F;
  fsub   : F -> F -> F;
  fmul   : F -> F -> F;
  fdiv   : F -> F -> F;
  fneg   : F -> F;
  fabs   : F -> F;
  fmax   : F -> F -> F;
  fmin   : F -> F -> F;
  flt    : F -> F -> bool;
  fle    : F -> F -> bool;
  feq    : F -> F -> bool;
  ffinite : F -> bool
}.

(** Square root and the narrowing conversion to [float16_t]. *)
Class Intrinsics (F : Type) : Type := {
  fsqrt   : F -> F;
  to_half : F -> F
}.

Declare Scope float_scope.
Delimit Scope float_scope with F.
Notation "a + b" := (fadd a b) : float_scope.
Notation "a - b" := (fsub a b) : float_scope.
Notation "a * b" := (fmul a b) : float_scope.
Notation "a / b" := (fdiv a b) : float_scope.
Notation "- a" := (fneg a) : float_scope.
Notation "a <? b" := (flt a b) : float_scope.
Notation "a >? b" := (flt b a) : float_scope.
Notation "a <=? b" := (fle a b) : float_scope.
Notation "a =? b" := (feq a b) : float_scope.
Notation "a !=? b" := (negb (feq a b)) (at level 70) : float_scope.

(* ===================================================================== *)
(** ** Vectors, matrices and the Slang intrinsics on them *)
(* ===================================================================== *)

Record vec2 (F : Type) : Type := Vec2 { v2x : F; v2y : F }.
Record vec3 (F : Type) : Type := Vec3 { v3x : F; v3y : F; v3z : F }.
Record vec4 (F : Type) : Type := Vec4 { v4x : F; v4y : F; v4z : F; v4w : F }.
(** A [mat4] is four rows; [mul(m, v)] is the matrix-times-column product. *)
Record mat4 (F : Type) : Type := Mat4 { row0 : vec4 F; row1 : vec4 F; row2 : vec4 F; row3 : vec4 F }.

Section VectorOps.
Context {F : Type} `{Scalar F}.
Local Open Scope float_scope.

(** [vec3(s)] and [float2 v = s]: a scalar broadcast. *)
Definition splat2 (s : F) : vec2 F := Vec2 s s.
Definition splat3 (s : F) : vec3 F := Vec3 s s s.

Definition add2 (a b : vec2 F) : vec2 F := Vec2 (v2x a + v2x b) (v2y a + v2y b).
Definition sub2 (a b : vec2 F) : vec2 F := Vec2 (v2x a - v2x b) (v2y a - v2y b).
Definition mul2 (a b : vec2 F) : vec2 F := Vec2 (v2x a * v2x b) (v2y a * v2y b).
Definition dot2 (a b : vec2 F) : F := v2x a * v2x b + v2y a * v2y b.

Definition add3 (a b : vec3 F) : vec3 F := Vec3 (v3x a + v3x b) (v3y a + v3y b) (v3z a + v3z b).
Definition sub3 (a b : vec3 F) : vec3 F := Vec3 (v3x a - v3x b) (v3y a - v3y b) (v3z a - v3z b).
Definition scale3 (a : vec3 F) (s : F) : vec3 F := Vec3 (v3x a * s) (v3y a * s) (v3z a * s).
Definition divs3 (a : vec3 F) (s : F) : vec3 F := Vec3 (v3x a / s) (v3y a / s) (v3z a / s).
Definition neg3 (a : vec3 F) : vec3 F := Vec3 (- v3x a) (- v3y a) (- v3z a).
Definition dot3 (a b : vec3 F) : F := v3x a * v3x b + v3y a * v3y b + v3z a * v3z b.
Definition dot4 (a b : vec4 F) : F := v4x a * v4x b + v4y a * v4y b + v4z a * v4z b + v4w a * v4w b.

Definition xyz (v : vec4 F) : vec3 F := Vec3 (v4x v) (v4y v) (v4z v).
Definition xy (v : vec4 F) : vec2 F := Vec2 (v4x v) (v4y v).
(** [vec4(p, w)]. *)
Definition vec4_of (p : vec3 F) (w : F) : vec4 F := Vec4 (v3x p) (v3y p) (v3z p) w.

(** [mul(m, v)] for a [mat4] and a [vec4]. *)
Definition mul44 (m : mat4 F) (v : vec4 F) : vec4 F :=
  Vec4 (dot4 (row0 m) v) (dot4 (row1 m) v) (dot4 (row2 m) v) (dot4 (row3 m) v).
(** [mul(mat3(m), n)]: the upper-left 3x3 block applied to [n]. *)
Definition mul33 (m : mat4 F) (n : vec3 F) : vec3 F :=
  Vec3 (dot3 (xyz (row0 m)) n) (dot3 (xyz (row1 m)) n) (dot3 (xyz (row2 m)) n).

(** [any(v != 0)]. *)
Definition any_nonzero3 (v : vec3 F) : bool :=
  (v3x v !=? of_int 0) || (v3y v !=? of_int 0) || (v3z v !=? of_int 0).

(** [lerp(a, b, t) = a + (b - a) * t]. *)
Definition lerp (a b t : F) : F := a + (b - a) * t.
Definition lerp2 (a b : vec2 F) (t : F) : vec2 F := Vec2 (lerp (v2x a) (v2x b) t) (lerp (v2y a) (v2y b) t).
Definition lerp3 (a b : vec3 F) (t : F) : vec3 F :=
  Vec3 (lerp (v3x a) (v3x b) t) (lerp (v3y a) (v3y b) t) (lerp (v3z a) (v3z b) t).

(** [saturate(x)]: clamp to [0, 1]. *)
Definition saturate (x : F) : F := fmin (fmax x (of_int 0)) (of_int 1).

(** [reflect(i, n) = i - 2 * dot(n, i) * n]. *)
Definition reflect (i n : vec3 F) : vec3 F := sub3 i (scale3 n (of_int 2 * dot3 n i)).

Context `{Intrinsics F}.

Definition length2 (v : vec2 F) : F := fsqrt (dot2 v v).
Definition length3 (v : vec3 F) : F := fsqrt (dot3 v v).
(** [normalize(v) = v / length(v)]. *)
Definition normalize (v : vec3 F) : vec3 F := divs3 v (length3 v).

End VectorOps.

(* ===================================================================== *)
(** ** Data model *)
(* ===================================================================== *)

(** [int2] pixel coordinates ([SV_DispatchThreadID]) and [uvec2] sizes. *)
Definition int2 : Type := (Z * Z)%type.

(** [ReSTIRGI_Reservoir]: the fields [main] assigns. *)
Module Reservoir.
Record t (F : Type) : Type := Build {
  position : vec3 F;
  normal : vec3 F;
  radiance : vec3 F;
  avgWeight : F;
  M : Z;
  flagsAndVirtualFraction : Z
}.
Definition with_position {F} (r : t F) (p : vec3 F) : t F :=
  Build p (normal r) (radiance r) (avgWeight r) (M r) (flagsAndVirtualFraction r).
Definition with_normal {F} (r : t F) (n : vec3 F) : t F :=
  Build (position r) n (radiance r) (avgWeight r) (M r) (flagsAndVirtualFraction r).
Definition with_flagsAndVirtualFraction {F} (r : t F) (w : Z) : t F :=
  Build (position r) (normal r) (radiance r) (avgWeight r) (M r) w.
End Reservoir.
Abbreviation ReSTIRGI_Reservoir := Reservoir.t.

(** The parts of [RAB_Surface] this pass reads. *)
Module Surface.
Record MinimalSurfaceInteraction (F : Type) : Type := {
  position : vec3 F;
  triangleNormal : vec3 F
}.
Record MinimalRayInteraction (F : Type) : Type := {
  viewDirection : vec3 F
}.
Record OpaqueSurfaceMaterialInteraction (F : Type) : Type := {
  shadingNormal : vec3 F;
  albedo : vec3 F;
  baseReflectivity : vec3 F;
  isotropicRoughness : F
}.
Record t (F : Type) : Type := {
  minimalSurfaceInteraction : MinimalSurfaceInteraction F;
  minimalRayInteraction : MinimalRayInteraction F;
  opaqueSurfaceMaterialInteraction : OpaqueSurfaceMaterialInteraction F;
  virtualWorldPosition : vec3 F;
  objectMask : Z;
  portalSpace : Z;
  isViewModel : bool
}.
End Surface.
Abbreviation RAB_Surface := Surface.t.

Record GeometryFlags : Type := {
  primarySelectedIntegrationSurface : bool
}.

Record Camera (F : Type) : Type := {
  resolution : int2;
  prevWorldToProjection : mat4 F
}.

(** The per-frame constant buffer [cb]: the members [main] reads.
    [HitInfo] is the element type of [cb.rayPortalHitInfos]. *)
Record Constants (F HitInfo : Type) : Type := {
  camera : Camera F;
  frameIdx : Z;
  fireflyFilteringLuminanceThreshold : F;
  rayPortalHitInfos : Z -> HitInfo;
  numActiveRayPortals : Z;
  teleportationPortalIndex : Z;
  enableReSTIRGIVirtualSample : Z;
  enableReSTIRGIReflectionReprojection : Z;
  enableReSTIRGIDiscardEnlargedPixels : bool;
  restirGIReflectionMinParallax : F;
  temporalHistoryLength : Z;
  enableReSTIRGITemporalJacobian : bool;
  enableReSTIRGITemporalBiasCorrection : bool;
  enableReSTIRGIPermutationSampling : bool;
  enableReSTIRGITemporalReuse : bool;
  permutationSamplingSize : Z;
  uniformRandomNumber : Z;
  reSTIRGIBiasCorrectionMode : Z;
  debugView : Z
}.

(** [ReSTIRGI_TemporalResamplingParameters], as filled in by [main]. *)
Module TParams.
Record t (F : Type) : Type := {
  temporalHistoryLength : Z;
  enableJacobian : bool;
  enableBiasCorrection : bool;
  prevPixelCenter : vec2 F;
  prevBackupPixelCenter : vec2 F;
  resolution : int2;
  expectedPrevHitDistance : F;
  normalThreshold : F;
  depthThreshold : vec2 F;
  virtualMotionVector : vec3 F;
  uniformRandomNumber : Z;
  enablePermutationSampling : bool;
  permutationSamplingSize : Z;
  teleportationPortalIndex : Z;
  discardEnlargedPixels : bool;
  sourceBufferIndex : Z
}.
End TParams.
Abbreviation ReSTIRGI_TemporalResamplingParameters := TParams.t.

(** [VisibilityResult] of [traceVisibilityRay]. *)
Record VisibilityResult (F : Type) : Type := {
  hasOpaqueHit : bool;
  hitDistance : F
}.

(** The arguments of one [traceVisibilityRay] call, in call order. *)
Record VisibilityRayQuery (F : Type) : Type := {
  vq_origin : Surface.MinimalSurfaceInteraction F;
  vq_dstPosition : vec3 F;
  vq_arg3 : bool;
  vq_rayMask : Z;
  vq_mode : Z;
  vq_portalID : Z;
  vq_portalSpace : Z;
  vq_arg8 : Z;
  vq_arg9 : Z;
  vq_shortening : F;
  vq_isViewModel : bool
}.

(** What one invocation does to the world outside it, in program order:
    reservoir and debug-view writes, and the rays it traces. *)
Inductive Event (F : Type) : Type :=
| EvStoreGIReservoir (r : ReSTIRGI_Reservoir F) (pixel : int2) (page : Z)
| EvTraceVisibilityRay (q : VisibilityRayQuery F)
| EvTraceGISampleVisibility (s0 s1 : RAB_Surface F) (r : ReSTIRGI_Reservoir F) (numActiveRayPortals : Z)
| EvStoreInDebugView (pixel : int2) (v : vec3 F)
| EvAccumulateInDebugViewAnd (pixel : int2) (b : bool).
Arguments EvAccumulateInDebugViewAnd {F} pixel b.

Definition is_store {F} (e : Event F) : bool :=
  match e with EvStoreGIReservoir _ _ _ => true | _ => false end.
Definition is_reflection_ray {F} (e : Event F) : bool :=
  match e with EvTraceVisibilityRay _ => true | _ => false end.
Definition is_visibility_revalidation {F} (e : Event F) : bool :=
  match e with EvTraceGISampleVisibility _ _ _ _ => true | _ => false end.

(* ===================================================================== *)
(** ** What the shader includes *)
(* ===================================================================== *)

(** [rtx/utility/*.slangh]: value sanitation, firefly filter, luminance. *)
Class RtxUtility (F : Type) : Type := {
  sanitize : vec3 F -> vec3 F -> vec3 F;
  fireflyFiltering : vec3 F -> F -> vec3 F;
  calcBt709Luminance : vec3 F -> F;
  isValidValue : vec3 F -> bool
}.

(** Methods of [ReSTIRGI_Reservoir]. *)
Class ReservoirMethods (F : Type) : Type := {
  setPortalID : Z -> ReSTIRGI_Reservoir F -> ReSTIRGI_Reservoir F;
  setVirtualFraction : F -> ReSTIRGI_Reservoir F -> ReSTIRGI_Reservoir F;
  clearFlag : Z -> ReSTIRGI_Reservoir F -> ReSTIRGI_Reservoir F;
  setFlag : Z -> ReSTIRGI_Reservoir F -> ReSTIRGI_Reservoir F
}.

(** Constants, resource bindings and functions from the remaining headers
    (bindings, RTXDI application bridge, camera, surface material, ray
    tracing).  [RngState] is [RAB_RandomSamplerState]; [HitInfo] is
    [RayPortalHitInfo].  A texture is the function from pixel to texel;
    [geometryFlagsReadFromGBuffer] and [ReSTIRGI_LoadHitGeometry] read the
    bound textures [SharedFlags] and [RestirGIHitGeometry], which are not
    passed again; the three [out] parameters of [ReSTIRGI_LoadHitGeometry]
    are its result (position, normal, portal id), and [inout] parameters
    (the random stream) are returned next to the result. *)
Class Externals (F : Type) : Type := {
  RngState : Type;
  HitInfo : Type;
  (* constants *)
  RESTIR_GI_INVALID_INDIRECT_LIGHT_PORTAL_ID : Z;
  RAB_RESTIR_GI_DELTA_ROUGHNESS : F;
  RTXDI_INVALID_PORTAL_INDEX : Z;
  OBJECT_MASK_OPAQUE : Z;
  OBJECT_MASK_ALL_DYNAMIC : Z;
  visibilityModeAccurateHitDistance : Z;
  RAB_RESTIR_GI_VISIBILITY_SHORTENING : F;
  RTXDI_BIAS_CORRECTION_PAIRWISE_RAY_TRACED : Z;
  RESTIR_GI_FLAG_OCCLUDED_SAMPLE : Z;
  DEBUG_VIEW_RESTIR_GI_INITIAL_SAMPLE : Z;
  DEBUG_VIEW_RESTIR_GI_TEMPORAL_REUSE : Z;
  DEBUG_VIEW_NAN : Z;
  (* bindings *)
  cb : Constants F HitInfo;
  RestirGIRadiance : int2 -> vec4 F;
  PrimaryVirtualMotionVector : int2 -> vec4 F;
  (* G-buffer and hit geometry *)
  RAB_GetGBufferSurface : int2 -> bool -> RAB_Surface F;
  RAB_IsSurfaceValid : RAB_Surface F -> bool;
  geometryFlagsReadFromGBuffer : int2 -> GeometryFlags;
  ReSTIRGI_LoadHitGeometry : int2 -> vec3 F * vec3 F * Z;
  (* portals *)
  getOpposingRayPortalIndex : Z -> Z;
  rayPortalHitInfoIsActive : HitInfo -> bool;
  unpackPortalToOpposingPortalDirection : HitInfo -> mat4 F;
  (* reservoir pages *)
  ReSTIRGI_GetInitSamplePage : Z;
  ReSTIRGI_GetTemporalInputPage : Z;
  ReSTIRGI_GetTemporalOutputPage : Z;
  (* random stream *)
  RAB_InitRandomSampler : int2 -> Z -> Z -> RngState;
  RAB_GetNextRandom : RngState -> F * RngState;
  (* camera *)
  cameraNDCToScreenUV : Camera F -> vec2 F -> vec2 F;
  cameraGetPreviousWorldPosition : Camera F -> vec4 F;
  (* material *)
  evalOpaqueSchlickFresnel : vec3 F -> F -> vec3 F;
  (* rays *)
  traceVisibilityRay : VisibilityRayQuery F -> VisibilityResult F;
  RAB_TraceGISampleVisibility : RAB_Surface F -> RAB_Surface F -> ReSTIRGI_Reservoir F -> Z -> bool;
  (* the resampler: result, advanced stream, isGBufferSimilar, isInitialSample *)
  ReSTIRGI_TemporalResampling :
    ReSTIRGI_Reservoir F -> int2 -> RAB_Surface F -> RngState -> ReSTIRGI_TemporalResamplingParameters F ->
    ReSTIRGI_Reservoir F * RngState * bool * bool
}.

(* ===================================================================== *)
(** ** The compute shader [main], stage by stage *)
(* ===================================================================== *)

Section Shader.
Context {F : Type} {SF : Scalar F} {IF : Intrinsics F} {U : RtxUtility F} {RM : ReservoirMethods F}
  {E : Externals F}.
Local Open Scope float_scope.

(** Lines 66-83: the radiance of the initial sample and the indirect path
    length.  [primary] is [geometryFlags.primarySelectedIntegrationSurface],
    [radianceAndDistance] is [RestirGIRadiance[thread_id]] and [threshold] is
    [cb.fireflyFilteringLuminanceThreshold]. *)
Definition initialRadiance (primary : bool) (radianceAndDistance : vec4 F) (threshold : F) : vec3 F * F :=
  let radiance0 := splat3 (of_int 0) in
  let indirectPathLength0 := of_int 0 in
  let '(radiance1, indirectPathLength) :=
    if primary
    then (sanitize (xyz radianceAndDistance) (splat3 (of_int 0)), v4w radianceAndDistance)
    else (radiance0, indirectPathLength0) in
  let fireflyFilteringFactor := of_int 30 in
  (fireflyFiltering radiance1 (threshold * fireflyFilteringFactor), indirectPathLength).

(** Lines 89-99: transform the hit point when the indirect ray crossed a
    portal. *)
Definition portalTransform (portalID : Z) (initialSample : ReSTIRGI_Reservoir F) : ReSTIRGI_Reservoir F :=
  if negb (portalID =? RESTIR_GI_INVALID_INDIRECT_LIGHT_PORTAL_ID)%Z then
    let rayPortalHitInfo := rayPortalHitInfos cb (getOpposingRayPortalIndex portalID mod 2 ^ 32)%Z in
    if rayPortalHitInfoIsActive rayPortalHitInfo then
      let teleportMatrix := unpackPortalToOpposingPortalDirection rayPortalHitInfo in
      let s1 := Reservoir.with_position initialSample
                  (xyz (mul44 teleportMatrix (vec4_of (Reservoir.position initialSample) (lit 1 1)))) in
      Reservoir.with_normal s1 (mul33 teleportMatrix (Reservoir.normal s1))
    else initialSample
  else initialSample.

(** Lines 101-114: position and normal of a virtual sample. *)
Definition virtualSample (surface : RAB_Surface F) (indirectPathLength : F)
    (initialSample : ReSTIRGI_Reservoir F) : ReSTIRGI_Reservoir F :=
  let s0 := setVirtualFraction (lit 0 1) initialSample in
  if (enableReSTIRGIVirtualSample cb >? 0)%Z
     && (Surface.isotropicRoughness (Surface.opaqueSurfaceMaterialInteraction surface)
           >? RAB_RESTIR_GI_DELTA_ROUGHNESS)
  then
    let surfacePosition := Surface.position (Surface.minimalSurfaceInteraction surface) in
    let direction := sub3 (Reservoir.position s0) surfacePosition in
    if any_nonzero3 direction && (indirectPathLength >? length3 direction * lit 101 100) then
      let s1 := setVirtualFraction ((indirectPathLength - length3 direction) * lit 12 10) s0 in
      let s2 := Reservoir.with_position s1
                  (add3 surfacePosition (scale3 (normalize direction) indirectPathLength)) in
      Reservoir.with_normal s2 (neg3 (normalize direction))
    else s0
  else s0.

(** Lines 63-114: the Candidate Builder.  Returns the complete initial
    sample and the indirect path length. *)
Definition buildInitialSample (thread_id : int2) (surface : RAB_Surface F)
    (geometryFlags : GeometryFlags) : ReSTIRGI_Reservoir F * F :=
  let '(radiance, indirectPathLength) :=
    initialRadiance (primarySelectedIntegrationSurface geometryFlags)
                    (RestirGIRadiance thread_id)
                    (fireflyFilteringLuminanceThreshold cb) in
  let '(position, normal, portalID) := ReSTIRGI_LoadHitGeometry thread_id in
  let s0 := Reservoir.Build position normal radiance (of_int 1) 1%Z 0%Z in
  let s1 := setPortalID portalID s0 in
  let s2 := portalTransform portalID s1 in
  (virtualSample surface indirectPathLength s2, indirectPathLength).

(** Lines 127-129 and 171-173: project a world position with the previous
    frame's matrix and convert it to previous-frame pixel coordinates. *)
Definition projectToPrevPixel (camera : Camera F) (worldPosition : vec3 F) : vec2 F :=
  let ndc0 := mul44 (prevWorldToProjection camera) (vec4_of worldPosition (lit 1 1)) in
  let ndc := Vec4 (v4x ndc0 / v4w ndc0) (v4y ndc0 / v4w ndc0) (v4z ndc0 / v4w ndc0) (v4w ndc0) in
  mul2 (cameraNDCToScreenUV camera (xy ndc))
       (Vec2 (of_int (fst (resolution camera))) (of_int (snd (resolution camera)))).

(** Line 132: [0.01 / max(viewDirectionDotTriangleNormal, 0.01)], broadcast
    to a [float2]. *)
Definition depthThresholdOf (viewDirectionDotTriangleNormal : F) : vec2 F :=
  splat2 (lit 1 100 / fmax viewDirectionDotTriangleNormal (lit 1 100)).

(** Line 133: [lerp(0.995, 0.5, isotropicRoughness)]. *)
Definition normalThresholdOf (isotropicRoughness : F) : F :=
  lerp (lit 995 1000) (lit 5 10) isotropicRoughness.

(** Lines 121-133: the naive (motion-vector) reprojection. *)
Record NaiveReprojection : Type := {
  nr_virtualMotionVector : vec3 F;
  nr_prevPixelCenter : vec2 F;
  nr_expectedPrevHitDistance : F;
  nr_depthThreshold : vec2 F;
  nr_normalThreshold : F
}.

Definition naiveReprojection (thread_id : int2) (surface : RAB_Surface F) : NaiveReprojection :=
  let camera := camera cb in
  let virtualMotionVector := xyz (PrimaryVirtualMotionVector thread_id) in
  let prevVirtualWorldPosition := add3 (Surface.virtualWorldPosition surface) virtualMotionVector in
  let prevPixelCenter := projectToPrevPixel camera prevVirtualWorldPosition in
  let expectedPrevHitDistance :=
    length3 (sub3 prevVirtualWorldPosition (xyz (cameraGetPreviousWorldPosition camera))) in
  let viewDirectionDotTriangleNormal :=
    fabs (dot3 (Surface.viewDirection (Surface.minimalRayInteraction surface))
               (Surface.triangleNormal (Surface.minimalSurfaceInteraction surface))) in
  {| nr_virtualMotionVector := virtualMotionVector;
     nr_prevPixelCenter := prevPixelCenter;
     nr_expectedPrevHitDistance := expectedPrevHitDistance;
     nr_depthThreshold := depthThresholdOf viewDirectionDotTriangleNormal;
     nr_normalThreshold :=
       normalThresholdOf (Surface.isotropicRoughness (Surface.opaqueSurfaceMaterialInteraction surface)) |}.

(** Lines 135-146: the reflection sample weight. *)
Definition reflectionWeightOf (surface : RAB_Surface F) : F :=
  if (enableReSTIRGIReflectionReprojection cb >? 0)%Z then
    let material := Surface.opaqueSurfaceMaterialInteraction surface in
    let roughWeight := lit 1 1 - Surface.isotropicRoughness material in
    let normalDotOutputDirection :=
      to_half (dot3 (Surface.shadingNormal material)
                    (Surface.viewDirection (Surface.minimalRayInteraction surface))) in
    let albedoLuminance := to_half (calcBt709Luminance (Surface.albedo material)) in
    let fresnel := evalOpaqueSchlickFresnel (Surface.baseReflectivity material) normalDotOutputDirection in
    let fresnelLuminance := to_half (calcBt709Luminance fresnel) in
    let specularWeight := to_half (fresnelLuminance / to_half (fresnelLuminance + albedoLuminance)) in
    specularWeight * roughWeight
  else of_int 0.

(** Line 150: [thread_id + 0.5]. *)
Definition currentPixelCenterOf (thread_id : int2) : vec2 F :=
  Vec2 (of_int (fst thread_id) + lit 5 10) (of_int (snd thread_id) + lit 5 10).

(** Line 153: the guard of the reflection-reprojection block. *)
Definition reflectionReprojectionEnabled (thread_id : int2) (reflectionWeight : F)
    (prevPixelCenter : vec2 F) : bool :=
  (enableReSTIRGIReflectionReprojection cb >? 0)%Z
  && (reflectionWeight >? lit 5 100)
  && (length2 (sub2 prevPixelCenter (currentPixelCenterOf thread_id)) >? of_int 1).

(** Lines 155-166: the reflection ray that is traced. *)
Definition reflectionRayQuery (surface : RAB_Surface F) : VisibilityRayQuery F :=
  let worldPos := Surface.position (Surface.minimalSurfaceInteraction surface) in
  let viewVector := neg3 (Surface.viewDirection (Surface.minimalRayInteraction surface)) in
  let reflectionVector :=
    reflect viewVector (Surface.shadingNormal (Surface.opaqueSurfaceMaterialInteraction surface)) in
  let backupPortalID := RTXDI_INVALID_PORTAL_INDEX in
  let rayMask :=
    (Z.lor OBJECT_MASK_OPAQUE (Z.land (Surface.objectMask surface) OBJECT_MASK_ALL_DYNAMIC) mod 256)%Z in
  let infiniteHitT := lit 100000 1 in
  let dstPosition := add3 worldPos (scale3 reflectionVector infiniteHitT) in
  {| vq_origin := Surface.minimalSurfaceInteraction surface;
     vq_dstPosition := dstPosition;
     vq_arg3 := false;
     vq_rayMask := rayMask;
     vq_mode := visibilityModeAccurateHitDistance;
     vq_portalID := backupPortalID;
     vq_portalSpace := Surface.portalSpace surface;
     vq_arg8 := 0%Z;
     vq_arg9 := 0%Z;
     vq_shortening := RAB_RESTIR_GI_VISIBILITY_SHORTENING;
     vq_isViewModel := Surface.isViewModel surface |}.

(** Lines 155-173: the reflection-based reprojection target. *)
Definition prevReflectionCenterOf (surface : RAB_Surface F) : vec2 F :=
  let worldPos := Surface.position (Surface.minimalSurfaceInteraction surface) in
  let viewVector := neg3 (Surface.viewDirection (Surface.minimalRayInteraction surface)) in
  let infiniteHitT := lit 100000 1 in
  let visibility := traceVisibilityRay (reflectionRayQuery surface) in
  let reflectionHitT := if hasOpaqueHit visibility then hitDistance visibility else infiniteHitT in
  let reflectPosition := add3 worldPos (scale3 viewVector reflectionHitT) in
  projectToPrevPixel (camera cb) reflectPosition.

(** What the Reprojector hands to the Resampler. *)
Record Reprojection : Type := {
  rp_prevPixelCenter : vec2 F;
  rp_prevBackupPixelCenter : vec2 F;
  rp_depthThreshold : vec2 F;
  rp_discardEnlargedPixels : bool;
  rp_reflectionReprojectionWeight : F;
  rp_rng : RngState;
  rp_events : list (Event F)
}.

(** Lines 148-194: reflection reprojection. *)
Definition reflectionReprojection (thread_id : int2) (surface : RAB_Surface F)
    (reflectionWeight : F) (prevPixelCenter : vec2 F) (depthThreshold : vec2 F)
    (rng : RngState) : Reprojection :=
  let prevBackupPixelCenter0 := splat2 (of_int (-1)) in
  let discardEnlargedPixels0 := enableReSTIRGIDiscardEnlargedPixels cb in
  let reflectionReprojectionWeight0 := of_int 0 in
  if reflectionReprojectionEnabled thread_id reflectionWeight prevPixelCenter then
    let prevReflectionCenter := prevReflectionCenterOf surface in
    let events := [EvTraceVisibilityRay (reflectionRayQuery surface)] in
    let interpolateDistance := restirGIReflectionMinParallax cb in
    let reprojectionDistance := length2 (sub2 prevReflectionCenter prevPixelCenter) in
    let prevBackupPixelCenter := prevPixelCenter in
    if reprojectionDistance <? interpolateDistance then
      let distanceWeight := saturate (reprojectionDistance / interpolateDistance) in
      let reflectionReprojectionWeight := reflectionWeight * distanceWeight in
      {| rp_prevPixelCenter := lerp2 prevPixelCenter prevReflectionCenter reflectionReprojectionWeight;
         rp_prevBackupPixelCenter := prevBackupPixelCenter;
         rp_depthThreshold := depthThreshold;
         rp_discardEnlargedPixels := discardEnlargedPixels0;
         rp_reflectionReprojectionWeight := reflectionReprojectionWeight;
         rp_rng := rng;
         rp_events := events |}
    else
      let '(u, rng') := RAB_GetNextRandom rng in
      if u <? reflectionWeight then
        {| rp_prevPixelCenter := prevReflectionCenter;
           rp_prevBackupPixelCenter := prevBackupPixelCenter;
           rp_depthThreshold := Vec2 (lit 25 100) (v2y depthThreshold);
           rp_discardEnlargedPixels := false;
           rp_reflectionReprojectionWeight := reflectionWeight;
           rp_rng := rng';
           rp_events := events |}
      else
        {| rp_prevPixelCenter := prevPixelCenter;
           rp_prevBackupPixelCenter := prevBackupPixelCenter;
           rp_depthThreshold := depthThreshold;
           rp_discardEnlargedPixels := discardEnlargedPixels0;
           rp_reflectionReprojectionWeight := reflectionWeight;
           rp_rng := rng';
           rp_events := events |}
  else
    {| rp_prevPixelCenter := prevPixelCenter;
       rp_prevBackupPixelCenter := prevBackupPixelCenter0;
       rp_depthThreshold := depthThreshold;
       rp_discardEnlargedPixels := discardEnlargedPixels0;
       rp_reflectionReprojectionWeight := reflectionReprojectionWeight0;
       rp_rng := rng;
       rp_events := [] |}.

(** Lines 196-212: the resampling parameters. *)
Definition temporalParameters (naive : NaiveReprojection) (rp : Reprojection)
    : ReSTIRGI_TemporalResamplingParameters F :=
  {| TParams.temporalHistoryLength := temporalHistoryLength cb;
     TParams.enableJacobian := enableReSTIRGITemporalJacobian cb;
     TParams.enableBiasCorrection := enableReSTIRGITemporalBiasCorrection cb;
     TParams.prevPixelCenter := rp_prevPixelCenter rp;
     TParams.prevBackupPixelCenter := rp_prevBackupPixelCenter rp;
     TParams.resolution := resolution (camera cb);
     TParams.expectedPrevHitDistance := nr_expectedPrevHitDistance naive;
     TParams.normalThreshold := nr_normalThreshold naive;
     TParams.depthThreshold := rp_depthThreshold rp;
     TParams.virtualMotionVector := nr_virtualMotionVector naive;
     TParams.uniformRandomNumber := uniformRandomNumber cb;
     TParams.enablePermutationSampling := enableReSTIRGIPermutationSampling cb;
     TParams.permutationSamplingSize := permutationSamplingSize cb;
     TParams.teleportationPortalIndex := teleportationPortalIndex cb;
     TParams.discardEnlargedPixels := rp_discardEnlargedPixels rp;
     TParams.sourceBufferIndex := ReSTIRGI_GetTemporalInputPage |}.

(** Line 219-220: the guard of the visibility update. *)
Definition revalidationEnabled (isGBufferSimilar isInitialSample : bool) : bool :=
  (reSTIRGIBiasCorrectionMode cb =? RTXDI_BIAS_CORRECTION_PAIRWISE_RAY_TRACED)%Z
  && isGBufferSimilar && negb isInitialSample.

(** Lines 218-225: update last frame's visibility mask. *)
Definition visibilityRevalidation (surface : RAB_Surface F) (resultReservoir : ReSTIRGI_Reservoir F)
    (isGBufferSimilar isInitialSample : bool) : ReSTIRGI_Reservoir F * list (Event F) :=
  if revalidationEnabled isGBufferSimilar isInitialSample then
    let isVisible := RAB_TraceGISampleVisibility surface surface resultReservoir (numActiveRayPortals cb) in
    let r1 := clearFlag RESTIR_GI_FLAG_OCCLUDED_SAMPLE resultReservoir in
    let r2 := setFlag (if isVisible then 0%Z else RESTIR_GI_FLAG_OCCLUDED_SAMPLE) r1 in
    (r2, [EvTraceGISampleVisibility surface surface resultReservoir (numActiveRayPortals cb)])
  else (resultReservoir, []).

(** Lines 227-230: the output policy. *)
Definition outputReservoir (initialSample resultReservoir : ReSTIRGI_Reservoir F) : ReSTIRGI_Reservoir F :=
  if negb (enableReSTIRGITemporalReuse cb) then initialSample else resultReservoir.

(** Lines 233-247: the debug views. *)
Definition debugViewEvents (thread_id : int2) (initialSample : ReSTIRGI_Reservoir F)
    (isGBufferSimilar : bool) (reflectionReprojectionWeight : F) : list (Event F) :=
  if (debugView cb =? DEBUG_VIEW_RESTIR_GI_INITIAL_SAMPLE)%Z then
    [EvStoreInDebugView thread_id (Reservoir.radiance initialSample)]
  else if (debugView cb =? DEBUG_VIEW_RESTIR_GI_TEMPORAL_REUSE)%Z then
    [EvStoreInDebugView thread_id
       (if isGBufferSimilar
        then lerp3 (Vec3 (of_int 1) (of_int 0) (of_int 0)) (Vec3 (of_int 0) (of_int 1) (of_int 0))
                   reflectionReprojectionWeight
        else splat3 (of_int 0))]
  else if (debugView cb =? DEBUG_VIEW_NAN)%Z then
    let isValid := true && isValidValue (Reservoir.radiance initialSample) in
    [EvAccumulateInDebugViewAnd thread_id isValid]
  else [].

(** Lines 119-194: the Reprojector (random stream, naive reprojection,
    reflection weight, reflection reprojection). *)
Definition reproject (thread_id : int2) (surface : RAB_Surface F) : NaiveReprojection * Reprojection :=
  let rng := RAB_InitRandomSampler thread_id (frameIdx cb) 2%Z in
  let naive := naiveReprojection thread_id surface in
  let reflectionWeight := reflectionWeightOf surface in
  (naive, reflectionReprojection thread_id surface reflectionWeight
            (nr_prevPixelCenter naive) (nr_depthThreshold naive) rng).

(** Lines 196-216: the call of the Resampler. *)
Definition temporalResampling (thread_id : int2) (surface : RAB_Surface F)
    (initialSample : ReSTIRGI_Reservoir F) : ReSTIRGI_Reservoir F * RngState * bool * bool :=
  let '(naive, rp) := reproject thread_id surface in
  ReSTIRGI_TemporalResampling initialSample thread_id surface (rp_rng rp) (temporalParameters naive rp).

(** Lines 54-247 for an in-bounds pixel with a valid surface. *)
Definition shade (thread_id : int2) (surface : RAB_Surface F) : list (Event F) :=
  let geometryFlags := geometryFlagsReadFromGBuffer thread_id in
  let '(initialSample, indirectPathLength) := buildInitialSample thread_id surface geometryFlags in
  let store1 := [EvStoreGIReservoir initialSample thread_id ReSTIRGI_GetInitSamplePage] in
  let '(naive, rp) := reproject thread_id surface in
  let '(resultReservoir0, rng', isGBufferSimilar, isInitialSample) :=
    temporalResampling thread_id surface initialSample in
  let '(resultReservoir1, rays) :=
    visibilityRevalidation surface resultReservoir0 isGBufferSimilar isInitialSample in
  let resultReservoir := outputReservoir initialSample resultReservoir1 in
  store1 ++ rp_events rp ++ rays
    ++ [EvStoreGIReservoir resultReservoir thread_id ReSTIRGI_GetTemporalOutputPage]
    ++ debugViewEvents thread_id initialSample isGBufferSimilar (rp_reflectionReprojectionWeight rp).

(** The whole invocation: the events of one pixel, in program order. *)
Definition main (thread_id : int2) : list (Event F) :=
  let camera := camera cb in
  if (fst thread_id >=? fst (resolution camera))%Z || (snd thread_id >=? snd (resolution camera))%Z
  then []
  else
    let surface := RAB_GetGBufferSurface thread_id false in
    if negb (RAB_IsSurfaceValid surface) then []
    else shade thread_id surface.

End Shader.

(* ===================================================================== *)
(** ** IEEE binary32 scalars *)
(* ===================================================================== *)

(** [float] as IEEE 754 binary32 (24-bit significand, [emax = 128]), with
    round-to-nearest-even, on [SpecFloat]'s executable operations. *)
Module Binary32.

Definition prec : Z := 24.
Definition emax : Z := 128.
Definition float : Type := spec_float.

Definition of_Z (z : Z) : float := binary_normalize prec emax z 0 false.
(** A decimal literal [n/d] with [n] and [d] exactly representable: the
    correctly rounded quotient. *)
Definition literal (n : Z) (d : positive) : float := SFdiv prec emax (of_Z n) (of_Z (Zpos d)).

Definition is_nan (x : float) : bool :=
  match x with S754_nan => true | _ => false end.
Definition is_finite (x : float) : bool :=
  match x with S754_zero _ | S754_finite _ _ _ => true | _ => false end.

(** [max] and [min] return the other operand when one is NaN. *)
Definition max (x y : float) : float :=
  if is_nan x then y else if is_nan y then x else if SFltb x y then y else x.
Definition min (x y : float) : float :=
  if is_nan x then y else if is_nan y then x else if SFltb y x then y else x.

(** Conversion to [float16_t] (binary16: 11-bit significand, [emax = 16])
    and back; the result is a binary32 value. *)
Definition round_half (x : float) : float :=
  match x with
  | S754_finite s m e =>
      match binary_round 11 16 s m e with
      | S754_finite s' m' e' => binary_round prec emax s' m' e'
      | y => y
      end
  | y => y
  end.

(** The bit pattern of [f32tof16]. *)
Definition half_bits (x : float) : Z :=
  let sign (s : bool) := if s then 32768 else 0 in
  match x with
  | S754_nan => 32256
  | S754_infinity s => sign s + 31744
  | S754_zero s => sign s
  | S754_finite s m e =>
      match binary_round 11 16 s m e with
      | S754_finite s' m' e' =>
          if (Zpos m' <? 1024) then sign s' + Zpos m'
          else sign s' + (e' + 25) * 1024 + (Zpos m' - 1024)
      | S754_infinity s' => sign s' + 31744
      | S754_zero s' => sign s'
      | S754_nan => 32256
      end
  end.

#[export] Instance scalar : Scalar float := {|
  lit := literal;
  of_int := of_Z;
  fadd := SFadd prec emax;
  fsub := SFsub prec emax;
  fmul := SFmul prec emax;
  fdiv := SFdiv prec emax;
  fneg := SFopp;
  fabs := SFabs;
  fmax := max;
  fmin := min;
  flt := SFltb;
  fle := SFleb;
  feq := SFeqb;
  ffinite := is_finite
|}.

#[export] Instance intrinsics : Intrinsics float := {|
  fsqrt := SFsqrt prec emax;
  to_half := round_half
|}.

End Binary32.

(* ===================================================================== *)
(** ** Exact scalars *)
(* ===================================================================== *)

(** Rationals extended with the IEEE special values: finite values are
    computed exactly (no rounding, no overflow), the special values follow
    the IEEE rules.  There is a single zero, which counts as positive where
    a sign is needed. *)
Module Exact.

Inductive xq : Type :=
| Fin (q : Q)
| PInf
| NInf
| NaN.

Definition Qltb (a b : Q) : bool := negb (Qle_bool b a).

Definition neg (x : xq) : xq :=
  match x with
  | Fin q => Fin (- q)
  | PInf => NInf
  | NInf => PInf
  | NaN => NaN
  end.

Definition abs (x : xq) : xq :=
  match x with
  | Fin q => Fin (Qabs q)
  | PInf | NInf => PInf
  | NaN => NaN
  end.

Definition add (x y : xq) : xq :=
  match x, y with
  | NaN, _ | _, NaN => NaN
  | Fin a, Fin b => Fin (a + b)
  | PInf, NInf | NInf, PInf => NaN
  | PInf, _ | _, PInf => PInf
  | NInf, _ | _, NInf => NInf
  end.

Definition sub (x y : xq) : xq := add x (neg y).

(** An infinity of the sign of [q] times the sign [s] ([true] = negative);
    NaN when [q] is zero. *)
Definition inf_times (s : bool) (q : Q) : xq :=
  if Qeq_bool q 0 then NaN
  else if xorb s (Qltb q 0) then NInf else PInf.

Definition mul (x y : xq) : xq :=
  match x, y with
  | NaN, _ | _, NaN => NaN
  | Fin a, Fin b => Fin (a * b)
  | PInf, Fin q | Fin q, PInf => inf_times false q
  | NInf, Fin q | Fin q, NInf => inf_times true q
  | PInf, PInf | NInf, NInf => PInf
  | PInf, NInf | NInf, PInf => NInf
  end.

Definition div (x y : xq) : xq :=
  match x, y with
  | NaN, _ | _, NaN => NaN
  | Fin a, Fin b =>
      if Qeq_bool b 0 then inf_times false a else Fin (a / b)
  | Fin _, (PInf | NInf) => Fin 0
  | PInf, Fin b => if Qltb b 0 then NInf else PInf
  | NInf, Fin b => if Qltb b 0 then PInf else NInf
  | (PInf | NInf), (PInf | NInf) => NaN
  end.

Definition ltb (x y : xq) : bool :=
  match x, y with
  | NaN, _ | _, NaN => false
  | Fin a, Fin b => Qltb a b
  | NInf, (Fin _ | PInf) => true
  | Fin _, PInf => true
  | _, _ => false
  end.

Definition eqb (x y : xq) : bool :=
  match x, y with
  | Fin a, Fin b => Qeq_bool a b
  | PInf, PInf | NInf, NInf => true
  | _, _ => false
  end.

Definition leb (x y : xq) : bool := ltb x y || eqb x y.

Definition is_nan (x : xq) : bool :=
  match x with NaN => true | _ => false end.
Definition is_finite (x : xq) : bool :=
  match x with Fin _ => true | _ => false end.

Definition max (x y : xq) : xq :=
  if is_nan x then y else if is_nan y then x else if ltb x y then y else x.
Definition min (x y : xq) : xq :=
  if is_nan x then y else if is_nan y then x else if ltb y x then y else x.

#[export] Instance scalar : Scalar xq := {|
  lit := fun n d => Fin (n # d);
  of_int := fun z => Fin (inject_Z z);
  fadd := add;
  fsub := sub;
  fmul := mul;
  fdiv := div;
  fneg := neg;
  fabs := abs;
  fmax := max;
  fmin := min;
  flt := ltb;
  fle := leb;
  feq := eqb;
  ffinite := is_finite
|}.

End Exact.

(* ===================================================================== *)
(** ** Parts of the repository outside the two files, modelled from the spec *)
(* ===================================================================== *)

Section UtilityModel.
Context {F : Type} `{Scalar F}.
Local Open Scope float_scope.

(** Modelled from the spec: [calcBt709Luminance] of [rtx/utility], the
    luminance the firefly clamp bounds; the ITU-R BT.709 weights. *)
Definition luminance_model (v : vec3 F) : F :=
  lit 2126 10000 * v3x v + lit 7152 10000 * v3y v + lit 722 10000 * v3z v.

(** A radiance component the spec's invariant admits: finite and
    non-negative. *)
Definition component_ok (c : F) : bool := ffinite c && (of_int 0 <=? c).

(** Modelled from the spec: [sanitize] of [rtx/utility].  "Invalid/NaN/
    negative radiance -> sanitized to zero before use"; the second argument
    is the replacement value. *)
Definition sanitize_model (v d : vec3 F) : vec3 F :=
  if component_ok (v3x v) && component_ok (v3y v) && component_ok (v3z v) then v else d.

(** Modelled from the spec: [fireflyFiltering] of [rtx/utility].  "Clamp
    luminance above the threshold down toward the threshold while preserving
    hue/direction": a value brighter than [maxLuminance] is scaled by
    [maxLuminance / luminance]. *)
Definition fireflyFiltering_model (v : vec3 F) (maxLuminance : F) : vec3 F :=
  let luminance := luminance_model v in
  if luminance >? maxLuminance then scale3 v (maxLuminance / luminance) else v.

(** Modelled from the spec: [isValidValue] of [rtx/utility], "no component
    is NaN/Inf". *)
Definition isValidValue_model (v : vec3 F) : bool :=
  ffinite (v3x v) && ffinite (v3y v) && ffinite (v3z v).

Definition utility_model : RtxUtility F := {|
  sanitize := sanitize_model;
  fireflyFiltering := fireflyFiltering_model;
  calcBt709Luminance := luminance_model;
  isValidValue := isValidValue_model
|}.

End UtilityModel.

Section ReservoirModel.
Context {F : Type}.
(** The 16-bit encoding of the virtual fraction ([f32tof16]). *)
Variable encodeFraction : F -> Z.

(** Modelled from the spec: the accessors of [ReSTIRGI_Reservoir], whose
    declaration is in the RTXDI bridge header.  "flagsAndVirtualFraction:
    bitfield - packs boolean flags (e.g. occluded-sample) and a fractional
    virtual extension length"; the portal id is kept in the same word.  The
    layout chosen here: bits 0-15 the fraction, bits 16-23 the portal id,
    the flags above. *)
Definition setVirtualFraction_model (f : F) (r : ReSTIRGI_Reservoir F) : ReSTIRGI_Reservoir F :=
  Reservoir.with_flagsAndVirtualFraction r
    (Z.lor (Z.land (Reservoir.flagsAndVirtualFraction r) (Z.lnot 65535)) (encodeFraction f mod 65536)).

Definition setPortalID_model (portalID : Z) (r : ReSTIRGI_Reservoir F) : ReSTIRGI_Reservoir F :=
  Reservoir.with_flagsAndVirtualFraction r
    (Z.lor (Z.land (Reservoir.flagsAndVirtualFraction r) (Z.lnot (Z.shiftl 255 16)))
           (Z.shiftl (portalID mod 256) 16)).

Definition setFlag_model (flag : Z) (r : ReSTIRGI_Reservoir F) : ReSTIRGI_Reservoir F :=
  Reservoir.with_flagsAndVirtualFraction r (Z.lor (Reservoir.flagsAndVirtualFraction r) flag).

Definition clearFlag_model (flag : Z) (r : ReSTIRGI_Reservoir F) : ReSTIRGI_Reservoir F :=
  Reservoir.with_flagsAndVirtualFraction r (Z.land (Reservoir.flagsAndVirtualFraction r) (Z.lnot flag)).

Definition reservoir_model : ReservoirMethods F := {|
  setPortalID := setPortalID_model;
  setVirtualFraction := setVirtualFraction_model;
  clearFlag := clearFlag_model;
  setFlag := setFlag_model
|}.

End ReservoirModel.

Section ResamplerModel.
Context {F : Type} `{Scalar F}.
Local Open Scope float_scope.
(** The random stream. *)
Variable Rng : Type.
Variable nextRandom : Rng -> F * Rng.
(** The previous frame's reservoir page ([sourceBufferIndex]); [None] is an
    invalid reservoir. *)
Variable previousPage : int2 -> option (ReSTIRGI_Reservoir F).
(** The pixel a previous-frame pixel centre falls in. *)
Variable pixelOf : vec2 F -> int2.
(** Step 2, the geometric similarity test of the current surface against
    the previous-frame pixel (depth against [depthThreshold], normal against
    [normalThreshold]). *)
Variable similar : RAB_Surface F -> ReSTIRGI_TemporalResamplingParameters F -> int2 -> bool.
(** Step 3, the permutation-sampling offset of the reprojected pixel. *)
Variable permute : ReSTIRGI_TemporalResamplingParameters F -> int2 -> int2.
(** Steps 5 and 6, the resampling weight of a reservoir's sample at the
    current surface under the bias-correction mode and the Jacobian. *)
Variable sampleWeight :
  RAB_Surface F -> ReSTIRGI_TemporalResamplingParameters F -> ReSTIRGI_Reservoir F -> F.

Definition inResolution (res p : int2) : bool :=
  (0 <=? fst p)%Z && (fst p <? fst res)%Z && (0 <=? snd p)%Z && (snd p <? snd res)%Z.

(** Step 3: the perturbed pixel when permutation sampling is enabled and
    the perturbed pixel is still similar, else the reprojected pixel. *)
Definition reprojectedPixel (surface : RAB_Surface F)
    (tparams : ReSTIRGI_TemporalResamplingParameters F) : int2 :=
  let p := pixelOf (TParams.prevPixelCenter tparams) in
  if TParams.enablePermutationSampling tparams then
    let p' := permute tparams p in
    if inResolution (TParams.resolution tparams) p' && similar surface tparams p' then p' else p
  else p.

(** Step 4: the weighted merge.  [M] is the sum of both [M]s clamped to
    [temporalHistoryLength]; the retained sample is the previous one with
    probability proportional to its weight times its [M]. *)
Definition mergeReservoirs (surface : RAB_Surface F)
    (tparams : ReSTIRGI_TemporalResamplingParameters F)
    (candidate previous : ReSTIRGI_Reservoir F) (rng : Rng) : ReSTIRGI_Reservoir F * Rng :=
  let wc := sampleWeight surface tparams candidate * of_int (Reservoir.M candidate) in
  let wp := sampleWeight surface tparams previous * of_int (Reservoir.M previous) in
  let '(u, rng') := nextRandom rng in
  let chosen := if u * (wc + wp) <? wp then previous else candidate in
  let m := Z.min (Reservoir.M candidate + Reservoir.M previous) (TParams.temporalHistoryLength tparams) in
  (Reservoir.Build (Reservoir.position chosen) (Reservoir.normal chosen) (Reservoir.radiance chosen)
     ((wc + wp) / of_int (Reservoir.M candidate + Reservoir.M previous)) m
     (Reservoir.flagsAndVirtualFraction chosen),
   rng').

(** Steps 1 and 2 at one previous-frame pixel: the previous reservoir when
    the pixel is inside the resolution, its reservoir is valid with
    [M <> 0], and the surfaces are similar. *)
Definition usableHistory (surface : RAB_Surface F)
    (tparams : ReSTIRGI_TemporalResamplingParameters F) (p : int2) : option (ReSTIRGI_Reservoir F) :=
  if inResolution (TParams.resolution tparams) p then
    match previousPage p with
    | None => None
    | Some previous =>
        if (Reservoir.M previous =? 0)%Z then None
        else if similar surface tparams p then Some previous else None
    end
  else None.

(** The backup coordinate is in use unless it is the sentinel -1. *)
Definition hasBackup (tparams : ReSTIRGI_TemporalResamplingParameters F) : bool :=
  (of_int 0 <=? v2x (TParams.prevBackupPixelCenter tparams))
  && (of_int 0 <=? v2y (TParams.prevBackupPixelCenter tparams)).

(** Modelled from the spec: [ReSTIRGI_TemporalResampling] of
    [rtx/algorithm/rtxdi], section 4.3 steps 1 to 4, with the backup
    coordinate of section 4.2 tried when the primary one is rejected.  The
    result is the merged reservoir, the advanced random stream,
    [isGBufferSimilar] and [isInitialSample]; on a disocclusion the
    candidate is returned unmodified with [isInitialSample = true]. *)
Definition ReSTIRGI_TemporalResampling_model (candidate : ReSTIRGI_Reservoir F) (thread_id : int2)
    (surface : RAB_Surface F) (rng : Rng) (tparams : ReSTIRGI_TemporalResamplingParameters F)
    : ReSTIRGI_Reservoir F * Rng * bool * bool :=
  let history :=
    match usableHistory surface tparams (reprojectedPixel surface tparams) with
    | Some previous => Some previous
    | None =>
        if hasBackup tparams
        then usableHistory surface tparams (pixelOf (TParams.prevBackupPixelCenter tparams))
        else None
    end in
  match history with
  | None => (candidate, rng, false, true)
  | Some previous =>
      let '(merged, rng') := mergeReservoirs surface tparams candidate previous rng in
      (merged, rng', true, false)
  end.

End ResamplerModel.

(* ===================================================================== *)
(** ** [dxvk_framebuffer.cpp]: render-target sizes *)
(* ===================================================================== *)

Module Dxvk.

Record VkExtent3D : Type := { width : Z; height : Z; depth : Z }.

Record DxvkFramebufferSize : Type := { fb_width : Z; fb_height : Z; fb_layers : Z }.

(** [DxvkImageView]: what [renderTargetSize] reads from a view. *)
Record DxvkImageView : Type := {
  mipLevelExtent : Z -> VkExtent3D;
  numLayers : Z
}.

(** [DxvkAttachment]: a possibly null view and its layout. *)
Record DxvkAttachment : Type := {
  view : option DxvkImageView;
  layout : Z
}.

(** [DxvkRenderTargets]: [m_depthTarget] and the array [m_colorTargets]. *)
Record DxvkRenderTargets : Type := {
  m_depthTarget : DxvkAttachment;
  m_colorTargets : list DxvkAttachment
}.

Section RenderTargets.
(** [MaxNumRenderTargets], the size of [m_colorTargets]. *)
Variable MaxNumRenderTargets : nat.

(** Lines 74-79. *)
Definition renderTargetSize (renderTarget : DxvkImageView) : DxvkFramebufferSize :=
  let extent := mipLevelExtent renderTarget 0 in
  let layers := numLayers renderTarget in
  {| fb_width := width extent; fb_height := height extent; fb_layers := layers |}.

(** Lines 55-60: the loop over the colour targets from index [i], with
    [n = MaxNumRenderTargets - i] iterations left.  [std::array::at] throws
    on an index outside the array: [None]. *)
Fixpoint colorImageSize (targets : list DxvkAttachment) (i n : nat) : option DxvkFramebufferSize :=
  match n with
  | O => Some {| fb_width := 0; fb_height := 0; fb_layers := 0 |}
  | S n' =>
      match nth_error targets i with
      | None => None
      | Some a =>
          match view a with
          | Some v => Some (renderTargetSize v)
          | None => colorImageSize targets (S i) n'
          end
      end
  end.

(** Lines 51-61. *)
Definition getImageSize (rt : DxvkRenderTargets) : option DxvkFramebufferSize :=
  match view (m_depthTarget rt) with
  | Some v => Some (renderTargetSize v)
  | None => colorImageSize (m_colorTargets rt) 0 MaxNumRenderTargets
  end.

Definition is_bound (a : DxvkAttachment) : bool :=
  match view a with Some _ => true | None => false end.

(** Lines 67-68: the loop, which stops as soon as [result] is set. *)
Fixpoint hasAttachmentsLoop (targets : list DxvkAttachment) (i n : nat) (result : bool) : option bool :=
  match n with
  | O => Some result
  | S n' =>
      if result then Some result
      else
        match nth_error targets i with
        | None => None
        | Some a => hasAttachmentsLoop targets (S i) n' (result || is_bound a)
        end
  end.

(** Lines 64-71. *)
Definition hasAttachments (rt : DxvkRenderTargets) : option bool :=
  hasAttachmentsLoop (m_colorTargets rt) 0 MaxNumRenderTargets (is_bound (m_depthTarget rt)).

(** The attachment the size is taken from, as the claim words it: the
    depth view when it is non-null, otherwise the non-null colour view of
    lowest index. *)
Definition FirstAttachment (rt : DxvkRenderTargets) (v : DxvkImageView) : Prop :=
  view (m_depthTarget rt) = Some v
  \/ (view (m_depthTarget rt) = None
      /\ exists i a, (i < MaxNumRenderTargets)%nat
           /\ nth_error (m_colorTargets rt) i = Some a /\ view a = Some v
           /\ forall j a', (j < i)%nat -> nth_error (m_colorTargets rt) j = Some a' -> view a' = None).

(** No attachment is bound. *)
Definition NoAttachment (rt : DxvkRenderTargets) : Prop :=
  view (m_depthTarget rt) = None
  /\ forall i a, (i < MaxNumRenderTargets)%nat -> nth_error (m_colorTargets rt) i = Some a -> view a = None.

End RenderTargets.

(** A 640x480 view with six layers. *)
Definition view640 : DxvkImageView :=
  {| mipLevelExtent := fun level => {| width := Z.shiftr 640 level; height := Z.shiftr 480 level; depth := 1 |};
     numLayers := 6 |}.
Definition unbound : DxvkAttachment := {| view := None; layout := 0 |}.

(** Eight colour targets, only the one at index 2 bound, and no depth
    target. *)
Definition colorOnly : DxvkRenderTargets :=
  {| m_depthTarget := unbound;
     m_colorTargets := [unbound; unbound; {| view := Some view640; layout := 2 |};
                        unbound; unbound; unbound; unbound; unbound] |}.

End Dxvk.

Section ModelledShader.
Context {F : Type} {SF : Scalar F} {RM : ReservoirMethods F} {E : Externals F}.

(** The reservoir mutators leave the sample count [M] alone (they act on
    the packed flags word). *)
Definition MethodsPreserveM : Prop :=
  (forall p r, Reservoir.M (setPortalID p r) = Reservoir.M r)
  /\ (forall x r, Reservoir.M (setVirtualFraction x r) = Reservoir.M r)
  /\ (forall b r, Reservoir.M (clearFlag b r) = Reservoir.M r)
  /\ (forall b r, Reservoir.M (setFlag b r) = Reservoir.M r).


(** The resampler the shader calls is the modelled one, reading the page
    [previousPage] and drawing from the shader's random stream. *)
Definition ResamplerIsModel
    (previousPage : int2 -> option (ReSTIRGI_Reservoir F))
    (pixelOf : vec2 F -> int2)
    (similar : RAB_Surface F -> ReSTIRGI_TemporalResamplingParameters F -> int2 -> bool)
    (permute : ReSTIRGI_TemporalResamplingParameters F -> int2 -> int2)
    (sampleWeight : RAB_Surface F -> ReSTIRGI_TemporalResamplingParameters F -> ReSTIRGI_Reservoir F -> F)
    : Prop :=
  forall candidate thread_id surface rng tparams,
    ReSTIRGI_TemporalResampling candidate thread_id surface rng tparams
    = ReSTIRGI_TemporalResampling_model RAB_GetNextRandom previousPage pixelOf similar permute
        sampleWeight candidate thread_id surface rng tparams.

End ModelledShader.

(* ===================================================================== *)
(** ** Three sentences of the specification, as they are worded *)
(* ===================================================================== *)

Section AsWorded.
Context {F : Type} {SF : Scalar F} {IF : Intrinsics F} {RM : ReservoirMethods F} {E : Externals F}.
Local Open Scope float_scope.

(** "Reposition the sample along the view-to-hit direction extended by 1.2
    times the path-length surplus": the hit position moved along the
    normalized surface-to-hit direction by 1.2 times (path length minus
    distance to the hit). *)
Definition claimedVirtualPosition (surface : RAB_Surface F) (indirectPathLength : F)
    (s : ReSTIRGI_Reservoir F) : vec3 F :=
  let s0 := setVirtualFraction (lit 0 1) s in
  let direction := sub3 (Reservoir.position s0) (Surface.position (Surface.minimalSurfaceInteraction surface)) in
  add3 (Reservoir.position s0)
       (scale3 (normalize direction) ((indirectPathLength - length3 direction) * lit 12 10)).

(** "Reflection-reprojection is enabled and specular weight exceeds 0.05
    and the naive and reflection-based reprojections diverge by more than
    one pixel". *)
Definition claimedReflectionGate (surface : RAB_Surface F) (reflectionWeight : F)
    (prevPixelCenter : vec2 F) : bool :=
  (enableReSTIRGIReflectionReprojection cb >? 0)%Z
  && (reflectionWeight >? lit 5 100)
  && (length2 (sub2 (prevReflectionCenterOf surface) prevPixelCenter) >? of_int 1).


End AsWorded.

(* ===================================================================== *)
(** ** A concrete frame on binary32 *)
(* ===================================================================== *)

(** A small frame on which the shader runs: a 16x16 target, an identity
    previous-frame projection, constant buffers.  The externals are fixed
    by a [Setup]; the utilities and the resampler are the models above. *)
Module Scene.
Import Binary32.

Definition f (n : Z) (d : positive) : float := literal n d.
Definition v3 (a b c : float) : vec3 float := Vec3 a b c.
Definition zero3 : vec3 float := v3 (f 0 1) (f 0 1) (f 0 1).

(** [RayPortalHitInfo]: the active bit and the unpacked teleport matrix. *)
Record PortalInfo : Type := {
  pi_active : bool;
  pi_matrix : mat4 float
}.

(** The previous frame's projection: orthographic along [z], with the
    screen [x] sheared by half the depth (the camera has turned since). *)
Definition prevProjection : mat4 float :=
  Mat4 (Vec4 (f 1 1) (f 0 1) (f 1 2) (f 0 1))
       (Vec4 (f 0 1) (f 1 1) (f 0 1) (f 0 1))
       (Vec4 (f 0 1) (f 0 1) (f 1 1) (f 0 1))
       (Vec4 (f 0 1) (f 0 1) (f 0 1) (f 1 1)).

(** A translation by [(1, 2, 3)]. *)
Definition translate123 : mat4 float :=
  Mat4 (Vec4 (f 1 1) (f 0 1) (f 0 1) (f 1 1))
       (Vec4 (f 0 1) (f 1 1) (f 0 1) (f 2 1))
       (Vec4 (f 0 1) (f 0 1) (f 1 1) (f 3 1))
       (Vec4 (f 0 1) (f 0 1) (f 0 1) (f 1 1)).

Record Setup : Type := {
  s_cb : Constants float PortalInfo;
  s_surface : RAB_Surface float;
  s_surfaceValid : bool;
  s_primary : bool;
  s_radiance : vec4 float;
  s_hitGeometry : vec3 float * vec3 float * Z;
  s_motion : vec4 float;
  s_random : float;
  s_reflectionHit : VisibilityResult float;
  s_visible : bool;
  s_previous : option (ReSTIRGI_Reservoir float)
}.

(** Truncation of a pixel centre to its pixel. *)
Definition floorZ (x : float) : Z :=
  match x with
  | S754_finite s m e =>
      let v := if (0 <=? e)%Z then Zpos m * 2 ^ e else Zpos m / 2 ^ (- e) in
      if s then - v else v
  | _ => 0
  end.

(** Schlick's approximation [f0 + (1 - f0) (1 - cos)^5]. *)
Definition schlick (f0 : vec3 float) (c : float) : vec3 float :=
  let k := (f 1 1 - c)%F in
  let k5 := (k * k * k * k * k)%F in
  v3 (v3x f0 + (f 1 1 - v3x f0) * k5)%F (v3y f0 + (f 1 1 - v3y f0) * k5)%F
     (v3z f0 + (f 1 1 - v3z f0) * k5)%F.

Definition utility : RtxUtility float := utility_model.
Definition methods : ReservoirMethods float := reservoir_model half_bits.

Definition externals (s : Setup) : Externals float := {|
  RngState := nat;
  HitInfo := PortalInfo;
  RESTIR_GI_INVALID_INDIRECT_LIGHT_PORTAL_ID := 255;
  RAB_RESTIR_GI_DELTA_ROUGHNESS := f 1 100;
  RTXDI_INVALID_PORTAL_INDEX := 255;
  OBJECT_MASK_OPAQUE := 1;
  OBJECT_MASK_ALL_DYNAMIC := 6;
  visibilityModeAccurateHitDistance := 1;
  RAB_RESTIR_GI_VISIBILITY_SHORTENING := f 1 1000;
  RTXDI_BIAS_CORRECTION_PAIRWISE_RAY_TRACED := 3;
  RESTIR_GI_FLAG_OCCLUDED_SAMPLE := Z.shiftl 1 24;
  DEBUG_VIEW_RESTIR_GI_INITIAL_SAMPLE := 101;
  DEBUG_VIEW_RESTIR_GI_TEMPORAL_REUSE := 102;
  DEBUG_VIEW_NAN := 103;
  cb := s_cb s;
  RestirGIRadiance := fun _ => s_radiance s;
  PrimaryVirtualMotionVector := fun _ => s_motion s;
  RAB_GetGBufferSurface := fun _ _ => s_surface s;
  RAB_IsSurfaceValid := fun _ => s_surfaceValid s;
  geometryFlagsReadFromGBuffer := fun _ => {| primarySelectedIntegrationSurface := s_primary s |};
  ReSTIRGI_LoadHitGeometry := fun _ => s_hitGeometry s;
  getOpposingRayPortalIndex := fun i => Z.lxor i 1;
  rayPortalHitInfoIsActive := pi_active;
  unpackPortalToOpposingPortalDirection := pi_matrix;
  ReSTIRGI_GetInitSamplePage := 2;
  ReSTIRGI_GetTemporalInputPage := 0;
  ReSTIRGI_GetTemporalOutputPage := 1;
  RAB_InitRandomSampler := fun _ _ _ => O;
  RAB_GetNextRandom := fun n => (s_random s, S n);
  cameraNDCToScreenUV := fun _ ndc =>
    Vec2 (v2x ndc * f 5 10 + f 5 10)%F (v2y ndc * f (-5) 10 + f 5 10)%F;
  cameraGetPreviousWorldPosition := fun _ => Vec4 (f 0 1) (f 0 1) (f (-1) 1) (f 1 1);
  evalOpaqueSchlickFresnel := schlick;
  traceVisibilityRay := fun _ => s_reflectionHit s;
  RAB_TraceGISampleVisibility := fun _ _ _ _ => s_visible s;
  ReSTIRGI_TemporalResampling :=
    ReSTIRGI_TemporalResampling_model
      (fun n => (s_random s, S n))
      (fun _ => s_previous s)
      (fun c => (floorZ (v2x c), floorZ (v2y c)))
      (fun _ _ _ => true)
      (fun _ p => p)
      (fun _ _ r => Reservoir.avgWeight r)
|}.

(** The constant buffer: the optional features on, pairwise ray-traced bias
    correction, no debug view; [active] is the state of every portal,
    [reuse] is [enableReSTIRGITemporalReuse], [cap] the history length. *)
Definition constants (active reuse : bool) (cap : Z) : Constants float PortalInfo := {|
  camera := {| resolution := (16, 16); prevWorldToProjection := prevProjection |};
  frameIdx := 7;
  fireflyFilteringLuminanceThreshold := f 1 1;
  rayPortalHitInfos := fun _ => {| pi_active := active; pi_matrix := translate123 |};
  numActiveRayPortals := 2;
  teleportationPortalIndex := 0;
  enableReSTIRGIVirtualSample := 1;
  enableReSTIRGIReflectionReprojection := 1;
  enableReSTIRGIDiscardEnlargedPixels := true;
  restirGIReflectionMinParallax := f 1 1;
  temporalHistoryLength := cap;
  enableReSTIRGITemporalJacobian := true;
  enableReSTIRGITemporalBiasCorrection := true;
  enableReSTIRGIPermutationSampling := false;
  enableReSTIRGITemporalReuse := reuse;
  permutationSamplingSize := 2;
  uniformRandomNumber := 12345;
  reSTIRGIBiasCorrectionMode := 3;
  debugView := 0
|}.

(** The surface seen through pixel [(8, 8)], whose centre [(8.5, 8.5)] is
    the screen point [(1/16, -1/16)]: at [(1/16, -1/16, 1/2)], facing the
    viewer along [-z]; [roughness] and [baseReflectivity] vary. *)
Definition surfaceAt (roughness reflectivity : float) : RAB_Surface float := {|
  Surface.minimalSurfaceInteraction :=
    {| Surface.position := v3 (f 1 16) (f (-1) 16) (f 1 2);
       Surface.triangleNormal := v3 (f 0 1) (f 0 1) (f (-1) 1) |};
  Surface.minimalRayInteraction := {| Surface.viewDirection := v3 (f 0 1) (f 0 1) (f (-1) 1) |};
  Surface.opaqueSurfaceMaterialInteraction :=
    {| Surface.shadingNormal := v3 (f 0 1) (f 0 1) (f (-1) 1);
       Surface.albedo := zero3;
       Surface.baseReflectivity := v3 reflectivity reflectivity reflectivity;
       Surface.isotropicRoughness := roughness |};
  Surface.virtualWorldPosition := v3 (f 1 16) (f (-1) 16) (f 1 2);
  Surface.objectMask := 3;
  Surface.portalSpace := 0;
  Surface.isViewModel := false
|}.

Definition pixel : int2 := (8, 8).

(** A previous-frame reservoir with eight merged samples. *)
Definition history : ReSTIRGI_Reservoir float :=
  Reservoir.Build (v3 (f 2 1) (f 0 1) (f 1 2)) (v3 (f (-1) 1) (f 0 1) (f 0 1))
    (v3 (f 1 4) (f 1 4) (f 1 4)) (f 1 1) 8 0.

(** A mirror carried along with the camera: its motion vector [(-1/4, 0, 0)]
    undoes the shear, so it keeps its pixel between the frames (the naive
    reprojection target is the current pixel centre), while what it
    reflects, half a unit behind it, was four pixels to the right.  The
    sample is one unit along [+x], behind a portal whose opposing side is
    [active]; the indirect path length is 2. *)
Definition mirror (active : bool) : Setup := {|
  s_cb := constants active true 30;
  s_surface := surfaceAt (f 0 1) (f 1 1);
  s_surfaceValid := true;
  s_primary := true;
  s_radiance := Vec4 (f 1 2) (f 1 2) (f 1 2) (f 2 1);
  s_hitGeometry := (v3 (f 17 16) (f (-1) 16) (f 1 2), v3 (f (-1) 1) (f 0 1) (f 0 1), 0);
  s_motion := Vec4 (f (-1) 4) (f 0 1) (f 0 1) (f 0 1);
  s_random := f 1 2;
  s_reflectionHit := {| hasOpaqueHit := true; hitDistance := f 1 2 |};
  s_visible := false;
  s_previous := Some history
|}.

Definition with_cb (s : Setup) (c : Constants float PortalInfo) : Setup := {|
  s_cb := c;
  s_surface := s_surface s;
  s_surfaceValid := s_surfaceValid s;
  s_primary := s_primary s;
  s_radiance := s_radiance s;
  s_hitGeometry := s_hitGeometry s;
  s_motion := s_motion s;
  s_random := s_random s;
  s_reflectionHit := s_reflectionHit s;
  s_visible := s_visible s;
  s_previous := s_previous s
|}.

Definition with_surface (s : Setup) (surface : RAB_Surface float) : Setup := {|
  s_cb := s_cb s;
  s_surface := surface;
  s_surfaceValid := s_surfaceValid s;
  s_primary := s_primary s;
  s_radiance := s_radiance s;
  s_hitGeometry := s_hitGeometry s;
  s_motion := s_motion s;
  s_random := s_random s;
  s_reflectionHit := s_reflectionHit s;
  s_visible := s_visible s;
  s_previous := s_previous s
|}.

Definition with_motion (s : Setup) (m : vec4 float) : Setup := {|
  s_cb := s_cb s;
  s_surface := s_surface s;
  s_surfaceValid := s_surfaceValid s;
  s_primary := s_primary s;
  s_radiance := s_radiance s;
  s_hitGeometry := s_hitGeometry s;
  s_motion := m;
  s_random := s_random s;
  s_reflectionHit := s_reflectionHit s;
  s_visible := s_visible s;
  s_previous := s_previous s
|}.

(** The same pixel on a rough surface (roughness 1/2). *)
Definition rough (active : bool) : Setup :=
  with_surface (mirror active) (surfaceAt (f 1 2) (f 1 1)).

(** The same mirror at rest in the world (no motion vector): the shear
    moves it two pixels on screen between the frames. *)
Definition fixedMirror : Setup :=
  with_motion (mirror false) (Vec4 (f 0 1) (f 0 1) (f 0 1) (f 0 1)).

(** The sample after the portal stage of the rough scene: the loaded hit
    geometry, one unit along [+x] from the surface. *)
Definition loadedSample : ReSTIRGI_Reservoir float :=
  Reservoir.Build (v3 (f 17 16) (f (-1) 16) (f 1 2)) (v3 (f (-1) 1) (f 0 1) (f 0 1))
    (v3 (f 1 2) (f 1 2) (f 1 2)) (f 1 1) 1 0.

(** The mirror with temporal reuse switched off. *)
Definition noReuse : Setup := with_cb (mirror false) (constants false false 30).

(** The mirror with a history length cap of zero. *)
Definition noHistory : Setup := with_cb (mirror false) (constants false true 0).

End Scene.

(* ===================================================================== *)
(** ** Properties of the shader *)
(* ===================================================================== *)

Section ShaderFacts.
Context {F : Type} {SF : Scalar F} {IF : Intrinsics F} {U : RtxUtility F} {RM : ReservoirMethods F}
  {E : Externals F}.
Local Open Scope float_scope.

(** The Reprojector traces rays and writes nothing. *)
Lemma reflectionReprojection_events (thread_id : int2) (surface : RAB_Surface F) (w : F)
    (ppc dt : vec2 F) (rng : RngState) :
  rp_events (reflectionReprojection thread_id surface w ppc dt rng)
  = if reflectionReprojectionEnabled thread_id w ppc
    then [EvTraceVisibilityRay (reflectionRayQuery surface)] else [].
Proof.
  unfold reflectionReprojection.
  destruct (reflectionReprojectionEnabled thread_id w ppc); [|reflexivity].
  destruct (flt _ _); [reflexivity|].
  destruct (RAB_GetNextRandom rng) as [u rng'].
  destruct (flt u w); reflexivity.
Qed.

Lemma visibilityRevalidation_events (surface : RAB_Surface F) (r : ReSTIRGI_Reservoir F)
    (sim init : bool) :
  snd (visibilityRevalidation surface r sim init)
  = if revalidationEnabled sim init
    then [EvTraceGISampleVisibility surface surface r (numActiveRayPortals cb)] else [].
Proof.
  unfold visibilityRevalidation.
  destruct (revalidationEnabled sim init); reflexivity.
Qed.

Lemma debugViewEvents_no_store (thread_id : int2) (s : ReSTIRGI_Reservoir F) (sim : bool) (w : F) :
  filter is_store (debugViewEvents thread_id s sim w) = [].
Proof.
  unfold debugViewEvents.
  repeat match goal with |- context [if ?b then _ else _] => destruct b end; reflexivity.
Qed.

Lemma debugViewEvents_no_ray (thread_id : int2) (s : ReSTIRGI_Reservoir F) (sim : bool) (w : F) :
  existsb is_visibility_revalidation (debugViewEvents thread_id s sim w) = false
  /\ existsb is_reflection_ray (debugViewEvents thread_id s sim w) = false.
Proof.
  unfold debugViewEvents.
  repeat match goal with |- context [if ?b then _ else _] => destruct b end; split; reflexivity.
Qed.

(** The reservoir writes of a shaded pixel: the initial sample to the
    initial-sample page, then the output reservoir to the output page. *)
Lemma shade_stores (thread_id : int2) (surface : RAB_Surface F) :
  filter is_store (shade thread_id surface)
  = let initialSample := fst (buildInitialSample thread_id surface (geometryFlagsReadFromGBuffer thread_id)) in
    let '(r0, _, sim, init) := temporalResampling thread_id surface initialSample in
    [EvStoreGIReservoir initialSample thread_id ReSTIRGI_GetInitSamplePage;
     EvStoreGIReservoir (outputReservoir initialSample (fst (visibilityRevalidation surface r0 sim init)))
       thread_id ReSTIRGI_GetTemporalOutputPage].
Proof.
  unfold shade.
  destruct (buildInitialSample thread_id surface (geometryFlagsReadFromGBuffer thread_id))
    as [initialSample ipl].
  destruct (reproject thread_id surface) as [naive rp] eqn:Hrp.
  cbn [fst].
  destruct (temporalResampling thread_id surface initialSample) as [[[r0 rng'] sim] init].
  pose proof (visibilityRevalidation_events surface r0 sim init) as Hev.
  destruct (visibilityRevalidation surface r0 sim init) as [r1 rays].
  cbn [fst snd] in *.
  assert (Hrpe : filter is_store (rp_events rp) = []).
  { unfold reproject in Hrp. injection Hrp as _ <-.
    rewrite reflectionReprojection_events.
    destruct (reflectionReprojectionEnabled _ _ _); reflexivity. }
  cbn [app filter is_store].
  rewrite !filter_app, Hrpe.
  cbn [app filter is_store].
  rewrite debugViewEvents_no_store.
  subst rays. destruct (revalidationEnabled sim init); reflexivity.
Qed.

Lemma main_in_bounds (thread_id : int2) :
  (fst thread_id < fst (resolution (camera cb)))%Z ->
  (snd thread_id < snd (resolution (camera cb)))%Z ->
  RAB_IsSurfaceValid (RAB_GetGBufferSurface thread_id false) = true ->
  main thread_id = shade thread_id (RAB_GetGBufferSurface thread_id false).
Proof.
  intros Hx Hy Hv. unfold main.
  replace (fst thread_id >=? fst (resolution (camera cb)))%Z with false by (symmetry; lia).
  replace (snd thread_id >=? snd (resolution (camera cb)))%Z with false by (symmetry; lia).
  rewrite Hv. reflexivity.
Qed.

(** C1.  When [cb.enableReSTIRGITemporalReuse] is false, an in-bounds pixel
    with a valid surface writes exactly two reservoirs, and the one written
    to the temporal output page is the initial (candidate) sample, whatever
    the resampler and the visibility update return. *)
Theorem temporal_reuse_disabled_identity (thread_id : int2) :
  (fst thread_id < fst (resolution (camera cb)))%Z ->
  (snd thread_id < snd (resolution (camera cb)))%Z ->
  RAB_IsSurfaceValid (RAB_GetGBufferSurface thread_id false) = true ->
  enableReSTIRGITemporalReuse cb = false ->
  let surface := RAB_GetGBufferSurface thread_id false in
  let candidate := fst (buildInitialSample thread_id surface (geometryFlagsReadFromGBuffer thread_id)) in
  filter is_store (main thread_id)
  = [EvStoreGIReservoir candidate thread_id ReSTIRGI_GetInitSamplePage;
     EvStoreGIReservoir candidate thread_id ReSTIRGI_GetTemporalOutputPage].
Proof.
  intros Hx Hy Hv Hoff surface candidate.
  rewrite (main_in_bounds _ Hx Hy Hv), shade_stores.
  fold surface. cbv zeta. fold candidate.
  destruct (temporalResampling thread_id surface candidate) as [[[r0 rng'] sim] init].
  unfold outputReservoir. rewrite Hoff. reflexivity.
Qed.

(** Which rays a shaded pixel traces. *)
Lemma shade_rays (thread_id : int2) (surface : RAB_Surface F) :
  let initialSample := fst (buildInitialSample thread_id surface (geometryFlagsReadFromGBuffer thread_id)) in
  let '(r0, _, sim, init) := temporalResampling thread_id surface initialSample in
  existsb is_visibility_revalidation (shade thread_id surface) = revalidationEnabled sim init
  /\ existsb is_reflection_ray (shade thread_id surface)
     = reflectionReprojectionEnabled thread_id (reflectionWeightOf surface)
         (nr_prevPixelCenter (naiveReprojection thread_id surface)).
Proof.
  unfold shade.
  destruct (buildInitialSample thread_id surface (geometryFlagsReadFromGBuffer thread_id))
    as [initialSample ipl].
  destruct (reproject thread_id surface) as [naive rp] eqn:Hrp.
  cbn [fst].
  destruct (temporalResampling thread_id surface initialSample) as [[[r0 rng'] sim] init].
  pose proof (visibilityRevalidation_events surface r0 sim init) as Hev.
  destruct (visibilityRevalidation surface r0 sim init) as [r1 rays].
  cbn [fst snd] in *.
  pose proof (reflectionReprojection_events thread_id surface (reflectionWeightOf surface)
                (nr_prevPixelCenter (naiveReprojection thread_id surface))
                (nr_depthThreshold (naiveReprojection thread_id surface))
                (RAB_InitRandomSampler thread_id (frameIdx cb) 2%Z)) as Hre.
  change (reflectionReprojection _ _ _ _ _ _) with (snd (reproject thread_id surface)) in Hre.
  rewrite Hrp in Hre. cbn [snd] in Hre.
  destruct (debugViewEvents_no_ray thread_id initialSample sim (rp_reflectionReprojectionWeight rp))
    as [Hd1 Hd2].
  cbn [app existsb is_visibility_revalidation is_reflection_ray].
  rewrite !existsb_app. cbn [existsb is_visibility_revalidation is_reflection_ray].
  rewrite Hd1, Hd2, Hre, Hev.
  destruct (revalidationEnabled sim init),
           (reflectionReprojectionEnabled thread_id (reflectionWeightOf surface)
              (nr_prevPixelCenter (naiveReprojection thread_id surface))); split; reflexivity.
Qed.

(** C8.  The visibility update runs (a sample-visibility ray is traced,
    and the occluded-sample flag is cleared and then set from its result)
    exactly when [cb.reSTIRGIBiasCorrectionMode] is pairwise ray traced and
    the resampler returned [isGBufferSimilar = true] and
    [isInitialSample = false]; otherwise the stage returns the reservoir it
    was given, unchanged, and traces nothing.  The last part states the
    gate for a whole shaded pixel. *)
Theorem visibility_revalidation_gate (thread_id : int2) (surface : RAB_Surface F)
    (r : ReSTIRGI_Reservoir F) (sim init : bool) :
  (revalidationEnabled sim init = true <->
     reSTIRGIBiasCorrectionMode cb = RTXDI_BIAS_CORRECTION_PAIRWISE_RAY_TRACED
     /\ sim = true /\ init = false)
  /\ existsb is_visibility_revalidation (snd (visibilityRevalidation surface r sim init))
     = revalidationEnabled sim init
  /\ fst (visibilityRevalidation surface r sim init)
     = (if revalidationEnabled sim init
        then setFlag (if RAB_TraceGISampleVisibility surface surface r (numActiveRayPortals cb)
                      then 0%Z else RESTIR_GI_FLAG_OCCLUDED_SAMPLE)
               (clearFlag RESTIR_GI_FLAG_OCCLUDED_SAMPLE r)
        else r)
  /\ (let candidate := fst (buildInitialSample thread_id surface (geometryFlagsReadFromGBuffer thread_id)) in
      let '(_, _, sim0, init0) := temporalResampling thread_id surface candidate in
      existsb is_visibility_revalidation (shade thread_id surface) = revalidationEnabled sim0 init0).
Proof.
  refine (conj _ (conj _ (conj _ _))).
  - unfold revalidationEnabled. rewrite !andb_true_iff, Z.eqb_eq, negb_true_iff. tauto.
  - rewrite visibilityRevalidation_events. destruct (revalidationEnabled sim init); reflexivity.
  - unfold visibilityRevalidation. destruct (revalidationEnabled sim init); reflexivity.
  - pose proof (shade_rays thread_id surface) as Hs. cbv zeta in *.
    destruct (temporalResampling thread_id surface _) as [[[r0 rng'] sim0] init0].
    apply Hs.
Qed.


(** C3, as the code has it.  When virtual samples are enabled, the
    roughness exceeds [RAB_RESTIR_GI_DELTA_ROUGHNESS], the surface-to-hit
    direction is nonzero and the indirect path length exceeds 1.01 times its
    length, the stage records a virtual fraction of 1.2 times the surplus
    (path length minus distance), places the sample at the distance of the
    indirect path length from the surface along the normalized direction,
    and sets the normal to the negated normalized direction. *)
Theorem virtual_sample_repositions (surface : RAB_Surface F) (indirectPathLength : F)
    (s : ReSTIRGI_Reservoir F) :
  let s0 := setVirtualFraction (lit 0 1) s in
  let surfacePosition := Surface.position (Surface.minimalSurfaceInteraction surface) in
  let direction := sub3 (Reservoir.position s0) surfacePosition in
  (enableReSTIRGIVirtualSample cb > 0)%Z ->
  (Surface.isotropicRoughness (Surface.opaqueSurfaceMaterialInteraction surface)
     >? RAB_RESTIR_GI_DELTA_ROUGHNESS) = true ->
  any_nonzero3 direction = true ->
  (indirectPathLength >? length3 direction * lit 101 100) = true ->
  virtualSample surface indirectPathLength s
  = Reservoir.with_normal
      (Reservoir.with_position
         (setVirtualFraction ((indirectPathLength - length3 direction) * lit 12 10) s0)
         (add3 surfacePosition (scale3 (normalize direction) indirectPathLength)))
      (neg3 (normalize direction)).
Proof.
  intros s0 surfacePosition direction Hen Hr Hd Hl.
  unfold virtualSample. fold s0. fold surfacePosition. fold direction.
  apply Z.gt_lt, Z.gtb_lt in Hen. rewrite Hen, Hr, Hd, Hl. reflexivity.
Qed.

(** C4, as the code has it.  The reflection-reprojection block is entered
    (the reflection ray is traced) exactly when reflection reprojection is
    enabled, the reflection weight exceeds 0.05 and the naive reprojection
    target lies more than one pixel from the current pixel centre;
    otherwise nothing is traced, the naive target is used unchanged, the
    backup coordinate is the sentinel -1, and thresholds, the
    discard-enlarged-pixels flag and the random stream are untouched.  The
    last part states the gate for a whole shaded pixel. *)
Theorem reflection_path_gate (thread_id : int2) (surface : RAB_Surface F) (reflectionWeight : F)
    (prevPixelCenter depthThreshold : vec2 F) (rng : RngState) :
  let rp := reflectionReprojection thread_id surface reflectionWeight prevPixelCenter depthThreshold rng in
  let entered := reflectionReprojectionEnabled thread_id reflectionWeight prevPixelCenter in
  (entered = true <->
     (enableReSTIRGIReflectionReprojection cb > 0)%Z
     /\ (reflectionWeight >? lit 5 100) = true
     /\ (length2 (sub2 prevPixelCenter (currentPixelCenterOf thread_id)) >? of_int 1) = true)
  /\ existsb is_reflection_ray (rp_events rp) = entered
  /\ (entered = false ->
        rp = {| rp_prevPixelCenter := prevPixelCenter;
                rp_prevBackupPixelCenter := splat2 (of_int (-1));
                rp_depthThreshold := depthThreshold;
                rp_discardEnlargedPixels := enableReSTIRGIDiscardEnlargedPixels cb;
                rp_reflectionReprojectionWeight := of_int 0;
                rp_rng := rng;
                rp_events := [] |})
  /\ existsb is_reflection_ray (shade thread_id surface)
     = reflectionReprojectionEnabled thread_id (reflectionWeightOf surface)
         (nr_prevPixelCenter (naiveReprojection thread_id surface)).
Proof.
  cbv zeta. refine (conj _ (conj _ (conj _ _))).
  - unfold reflectionReprojectionEnabled. rewrite !andb_true_iff, Z.gtb_lt. intuition lia.
  - rewrite reflectionReprojection_events.
    destruct (reflectionReprojectionEnabled thread_id reflectionWeight prevPixelCenter); reflexivity.
  - intros Hoff. unfold reflectionReprojection. rewrite Hoff. reflexivity.
  - pose proof (shade_rays thread_id surface) as Hs. cbv zeta in Hs.
    destruct (temporalResampling thread_id surface _) as [[[r0 rng'] sim0] init0].
    apply Hs.
Qed.

(** C5.  Inside the reflection-reprojection block, when the distance
    between the reflection-based and the naive target is not below
    [cb.restirGIReflectionMinParallax], one number is drawn from the random
    stream; the reflection-based target is selected exactly when that number
    is below the reflection weight, and then [depthThreshold.x] becomes 0.25
    and discard-enlarged-pixels is switched off; otherwise target,
    thresholds and flag stay as they were.  In both cases the naive target
    is kept as the backup coordinate, which is the sentinel -1 whenever the
    block is not entered. *)
Theorem reflection_target_selection (thread_id : int2) (surface : RAB_Surface F) (reflectionWeight : F)
    (prevPixelCenter depthThreshold : vec2 F) (rng : RngState) :
  let rp := reflectionReprojection thread_id surface reflectionWeight prevPixelCenter depthThreshold rng in
  let prevReflectionCenter := prevReflectionCenterOf surface in
  let reprojectionDistance := length2 (sub2 prevReflectionCenter prevPixelCenter) in
  (reflectionReprojectionEnabled thread_id reflectionWeight prevPixelCenter = true ->
   (reprojectionDistance <? restirGIReflectionMinParallax cb) = false ->
   rp_prevBackupPixelCenter rp = prevPixelCenter
   /\ rp_rng rp = snd (RAB_GetNextRandom rng)
   /\ rp_reflectionReprojectionWeight rp = reflectionWeight
   /\ ((fst (RAB_GetNextRandom rng) <? reflectionWeight) = true ->
         rp_prevPixelCenter rp = prevReflectionCenter
         /\ rp_depthThreshold rp = Vec2 (lit 25 100) (v2y depthThreshold)
         /\ rp_discardEnlargedPixels rp = false)
   /\ ((fst (RAB_GetNextRandom rng) <? reflectionWeight) = false ->
         rp_prevPixelCenter rp = prevPixelCenter
         /\ rp_depthThreshold rp = depthThreshold
         /\ rp_discardEnlargedPixels rp = enableReSTIRGIDiscardEnlargedPixels cb))
  /\ (reflectionReprojectionEnabled thread_id reflectionWeight prevPixelCenter = false ->
      rp_prevBackupPixelCenter rp = splat2 (of_int (-1))).
Proof.
  cbv zeta. split.
  - intros Hon Hfar. unfold reflectionReprojection. rewrite Hon, Hfar.
    destruct (RAB_GetNextRandom rng) as [u rng']. cbn [fst snd].
    destruct (flt u reflectionWeight); cbn; repeat split; intros; try reflexivity; discriminate.
  - intros Hoff. unfold reflectionReprojection. rewrite Hoff. reflexivity.
Qed.

End ShaderFacts.

(* ===================================================================== *)
(** ** The sample count [M] *)
(* ===================================================================== *)

Section HistoryLength.
Context {F : Type} {SF : Scalar F} {IF : Intrinsics F} {U : RtxUtility F} {RM : ReservoirMethods F}
  {E : Externals F}.
Variable previousPage : int2 -> option (ReSTIRGI_Reservoir F).
Variable pixelOf : vec2 F -> int2.
Variable similar : RAB_Surface F -> ReSTIRGI_TemporalResamplingParameters F -> int2 -> bool.
Variable permute : ReSTIRGI_TemporalResamplingParameters F -> int2 -> int2.
Variable sampleWeight :
  RAB_Surface F -> ReSTIRGI_TemporalResamplingParameters F -> ReSTIRGI_Reservoir F -> F.

Lemma portalTransform_M (portalID : Z) (s : ReSTIRGI_Reservoir F) :
  Reservoir.M (portalTransform portalID s) = Reservoir.M s.
Proof.
  unfold portalTransform.
  destruct (negb _); [|reflexivity].
  destruct (rayPortalHitInfoIsActive _); reflexivity.
Qed.

Lemma virtualSample_M (surface : RAB_Surface F) (ipl : F) (s : ReSTIRGI_Reservoir F) :
  MethodsPreserveM -> Reservoir.M (virtualSample surface ipl s) = Reservoir.M s.
Proof.
  intros (_ & Hv & _). unfold virtualSample.
  destruct (_ && _); [|apply Hv].
  destruct (_ && _); [|apply Hv].
  cbn. now rewrite !Hv.
Qed.

(** The initial sample always has [M = 1]. *)
Lemma initialSample_M (thread_id : int2) (surface : RAB_Surface F) (geometryFlags : GeometryFlags) :
  MethodsPreserveM ->
  Reservoir.M (fst (buildInitialSample thread_id surface geometryFlags)) = 1%Z.
Proof.
  intros HM. unfold buildInitialSample.
  destruct (initialRadiance _ _ _) as [radiance ipl].
  destruct (ReSTIRGI_LoadHitGeometry thread_id) as [[position normal] portalID].
  cbn [fst]. rewrite (virtualSample_M _ _ _ HM), portalTransform_M.
  destruct HM as (Hp & _). now rewrite Hp.
Qed.

(** The modelled resampler returns the candidate, or a merge whose [M] is
    the clamped sum. *)
Lemma resampler_model_M (candidate : ReSTIRGI_Reservoir F) (thread_id : int2)
    (surface : RAB_Surface F) (rng : RngState) (tparams : ReSTIRGI_TemporalResamplingParameters F) :
  (forall p r, previousPage p = Some r -> (0 <= Reservoir.M r)%Z) ->
  let r := fst (fst (fst (ReSTIRGI_TemporalResampling_model RAB_GetNextRandom previousPage pixelOf
                            similar permute sampleWeight candidate thread_id surface rng tparams))) in
  r = candidate
  \/ exists k, (1 <= k)%Z
       /\ Reservoir.M r = Z.min (Reservoir.M candidate + k) (TParams.temporalHistoryLength tparams).
Proof.
  intros Hprev. cbv zeta. unfold ReSTIRGI_TemporalResampling_model.
  assert (Huse : forall p previous, usableHistory previousPage similar surface tparams p = Some previous ->
                   (1 <= Reservoir.M previous)%Z).
  { intros p previous. unfold usableHistory.
    destruct (inResolution _ _); [|discriminate].
    destruct (previousPage p) as [r|] eqn:Hp; [|discriminate].
    destruct (Reservoir.M r =? 0)%Z eqn:H0; [discriminate|].
    destruct (similar _ _ _); [|discriminate].
    intros [= <-]. apply Hprev in Hp. apply Z.eqb_neq in H0. lia. }
  match goal with |- context [match ?h with Some _ => _ | None => (candidate, rng, false, true) end] =>
    destruct h as [previous|] eqn:Hh end; [|now left].
  right. exists (Reservoir.M previous). split.
  - destruct (usableHistory _ _ _ _ (reprojectedPixel _ _ _ _ _)) eqn:H1.
    + injection Hh as <-. eapply Huse, H1.
    + destruct (hasBackup tparams); [|discriminate]. eapply Huse, Hh.
  - unfold mergeReservoirs. destruct (RAB_GetNextRandom rng) as [u rng']. reflexivity.
Qed.

(** C2, as the code and the modelled resampler have it.  With reservoir
    mutators that leave [M] alone, the modelled resampler, a previous page
    of non-negative counts and a history length of at least 1, every
    reservoir an invocation writes (the initial sample and the reservoir of
    the output page) has [1 <= M <= cb.temporalHistoryLength]. *)
Theorem stored_M_within_history_length (thread_id : int2) :
  MethodsPreserveM ->
  ResamplerIsModel previousPage pixelOf similar permute sampleWeight ->
  (forall p r, previousPage p = Some r -> (0 <= Reservoir.M r)%Z) ->
  (1 <= temporalHistoryLength cb)%Z ->
  forall r pixel page,
    In (EvStoreGIReservoir r pixel page) (main thread_id) ->
    (1 <= Reservoir.M r <= temporalHistoryLength cb)%Z.
Proof.
  intros HM HR Hprev Hcap r pixel page Hin.
  assert (Hst : In (EvStoreGIReservoir r pixel page) (filter is_store (main thread_id))).
  { apply filter_In. split; [exact Hin|reflexivity]. }
  clear Hin. unfold main in Hst.
  destruct (_ || _); [contradiction|].
  set (surface := RAB_GetGBufferSurface thread_id false) in *.
  destruct (negb _); [contradiction|].
  rewrite shade_stores in Hst. cbv zeta in Hst.
  pose proof (initialSample_M thread_id surface (geometryFlagsReadFromGBuffer thread_id) HM) as Hc.
  set (candidate := fst (buildInitialSample thread_id surface (geometryFlagsReadFromGBuffer thread_id))) in *.
  assert (Hres : forall r0 rng' sim init,
             temporalResampling thread_id surface candidate = (r0, rng', sim, init) ->
             (1 <= Reservoir.M r0 <= temporalHistoryLength cb)%Z).
  { intros r0 rng' sim init Heq. unfold temporalResampling in Heq.
    destruct (reproject thread_id surface) as [naive rp].
    rewrite HR in Heq.
    pose proof (resampler_model_M candidate thread_id surface (rp_rng rp) (temporalParameters naive rp) Hprev)
      as Hm.
    cbv zeta in Hm. rewrite Heq in Hm. cbn [fst] in Hm.
    destruct Hm as [-> | (k & Hk & ->)]; [lia|].
    unfold temporalParameters; cbn [TParams.temporalHistoryLength]. lia. }
  destruct (temporalResampling thread_id surface candidate) as [[[r0 rng'] sim] init] eqn:Heq.
  specialize (Hres _ _ _ _ eq_refl).
  destruct Hst as [Hst | [Hst | []]]; injection Hst as <- _ _; [lia|].
  unfold outputReservoir. destruct (negb _); [lia|].
  unfold visibilityRevalidation. destruct (revalidationEnabled sim init); cbn [fst]; [|exact Hres].
  destruct HM as (_ & _ & Hcl & Hse). now rewrite Hse, Hcl.
Qed.

End HistoryLength.

(* ===================================================================== *)
(** ** The firefly clamp and the similarity thresholds, in exact arithmetic *)
(* ===================================================================== *)

Section ExactFacts.
Import Exact.
Local Open Scope Q_scope.







End ExactFacts.

Section ThresholdFacts.
Import Exact.
#[local] Existing Instance Binary32.scalar.
Local Open Scope Q_scope.




End ThresholdFacts.

(* ===================================================================== *)
(** ** Properties of [DxvkRenderTargets] *)
(* ===================================================================== *)

Section RenderTargetFacts.
Import Dxvk.
Variable MaxNumRenderTargets : nat.

Lemma hasAttachmentsLoop_true (targets : list DxvkAttachment) (i n : nat) :
  hasAttachmentsLoop targets i n true = Some true.
Proof. destruct n; reflexivity. Qed.

(** The loops from index [i] when the first bound colour target is [k]. *)
Lemma loops_first_bound (targets : list DxvkAttachment) (n i k : nat) (a : DxvkAttachment)
    (v : DxvkImageView) :
  (i + n <= length targets)%nat ->
  (i <= k < i + n)%nat ->
  nth_error targets k = Some a -> view a = Some v ->
  (forall j a', (i <= j < k)%nat -> nth_error targets j = Some a' -> view a' = None) ->
  colorImageSize targets i n = Some (renderTargetSize v)
  /\ hasAttachmentsLoop targets i n false = Some true.
Proof.
  revert i. induction n as [|n IH]; intros i Hlen Hk Hnth Hv Hfirst; [lia|].
  cbn [colorImageSize hasAttachmentsLoop].
  destruct (nth_error targets i) as [a0|] eqn:Hi.
  2:{ apply nth_error_None in Hi. lia. }
  destruct (Nat.eq_dec k i) as [->|Hne].
  - rewrite Hnth in Hi. injection Hi as <-. unfold is_bound. rewrite Hv.
    split; [reflexivity|apply hasAttachmentsLoop_true].
  - assert (H0 : view a0 = None) by (apply (Hfirst i); [lia|exact Hi]).
    unfold is_bound. rewrite H0. cbn [orb].
    apply IH; try assumption; try lia.
    intros j a' Hj. apply Hfirst. lia.
Qed.

(** The loops from index [i] when no colour target in range is bound. *)
Lemma loops_none_bound (targets : list DxvkAttachment) (n i : nat) :
  (i + n <= length targets)%nat ->
  (forall j a', (i <= j < i + n)%nat -> nth_error targets j = Some a' -> view a' = None) ->
  colorImageSize targets i n = Some {| fb_width := 0; fb_height := 0; fb_layers := 0 |}
  /\ hasAttachmentsLoop targets i n false = Some false.
Proof.
  revert i. induction n as [|n IH]; intros i Hlen Hnone; [split; reflexivity|].
  cbn [colorImageSize hasAttachmentsLoop].
  destruct (nth_error targets i) as [a0|] eqn:Hi.
  2:{ apply nth_error_None in Hi. lia. }
  assert (H0 : view a0 = None) by (apply (Hnone i); [lia|exact Hi]).
  unfold is_bound. rewrite H0. cbn [orb].
  apply IH; [lia|]. intros j a' Hj. apply Hnone. lia.
Qed.

(** A range of colour targets has a first bound one, or none. *)
Lemma first_bound_or_none (targets : list DxvkAttachment) (n i : nat) :
  (exists k a v, (i <= k < i + n)%nat /\ nth_error targets k = Some a /\ view a = Some v
     /\ forall j a', (i <= j < k)%nat -> nth_error targets j = Some a' -> view a' = None)
  \/ (forall j a', (i <= j < i + n)%nat -> nth_error targets j = Some a' -> view a' = None).
Proof.
  revert i. induction n as [|n IH]; intros i; [right; intros; lia|].
  destruct (nth_error targets i) as [a0|] eqn:Hi.
  - destruct (view a0) as [v|] eqn:Hv.
    + left. exists i, a0, v. repeat split; try assumption; lia.
    + destruct (IH (S i)) as [(k & a & v & Hk & Hnth & Hva & Hfirst) | Hnone].
      * left. exists k, a, v. repeat split; try assumption; try lia.
        intros j a' Hj Hja. destruct (Nat.eq_dec j i) as [->|Hne].
        -- congruence.
        -- apply (Hfirst j); [lia|exact Hja].
      * right. intros j a' Hj Hja. destruct (Nat.eq_dec j i) as [->|Hne].
        -- congruence.
        -- apply (Hnone j); [lia|exact Hja].
  - destruct (IH (S i)) as [(k & a & v & Hk & Hnth & Hva & Hfirst) | Hnone].
    + left. exists k, a, v. repeat split; try assumption; try lia.
      intros j a' Hj Hja. destruct (Nat.eq_dec j i) as [->|Hne].
      * congruence.
      * apply (Hfirst j); [lia|exact Hja].
    + right. intros j a' Hj Hja. destruct (Nat.eq_dec j i) as [->|Hne].
      * congruence.
      * apply (Hnone j); [lia|exact Hja].
Qed.

(** C10.  For render targets whose colour array has [MaxNumRenderTargets]
    entries, [getImageSize] returns the size (mip-0 extent and layer count)
    of the depth view when that is non-null, otherwise of the non-null
    colour view of lowest index, and the zero size when nothing is bound;
    [hasAttachments] is true exactly when there is such a first attachment
    and false exactly when there is none. *)
Theorem getImageSize_first_attachment (rt : DxvkRenderTargets) :
  length (m_colorTargets rt) = MaxNumRenderTargets ->
  (forall v, FirstAttachment MaxNumRenderTargets rt v ->
     getImageSize MaxNumRenderTargets rt
     = Some {| fb_width := width (mipLevelExtent v 0);
               fb_height := height (mipLevelExtent v 0);
               fb_layers := numLayers v |})
  /\ (NoAttachment MaxNumRenderTargets rt ->
      getImageSize MaxNumRenderTargets rt = Some {| fb_width := 0; fb_height := 0; fb_layers := 0 |})
  /\ (hasAttachments MaxNumRenderTargets rt = Some true
      <-> exists v, FirstAttachment MaxNumRenderTargets rt v)
  /\ (hasAttachments MaxNumRenderTargets rt = Some false <-> NoAttachment MaxNumRenderTargets rt).
Proof.
  intros Hlen.
  assert (Hfirst : forall v, FirstAttachment MaxNumRenderTargets rt v ->
            getImageSize MaxNumRenderTargets rt = Some (renderTargetSize v)
            /\ hasAttachments MaxNumRenderTargets rt = Some true).
  { intros v [Hd | (Hd & i & a & Hi & Hnth & Hv & Hlow)].
    - unfold getImageSize, hasAttachments, is_bound. rewrite Hd.
      split; [reflexivity|apply hasAttachmentsLoop_true].
    - unfold getImageSize, hasAttachments, is_bound. rewrite Hd.
      apply (@loops_first_bound (m_colorTargets rt) MaxNumRenderTargets 0 i a v);
        try assumption; try lia.
      intros j a' Hj. apply Hlow. lia. }
  assert (Hnone : NoAttachment MaxNumRenderTargets rt ->
            getImageSize MaxNumRenderTargets rt
            = Some {| fb_width := 0; fb_height := 0; fb_layers := 0 |}
            /\ hasAttachments MaxNumRenderTargets rt = Some false).
  { intros [Hd Hc]. unfold getImageSize, hasAttachments, is_bound. rewrite Hd.
    apply loops_none_bound; [lia|]. intros j a' Hj. apply Hc. lia. }
  assert (Hdec : (exists v, FirstAttachment MaxNumRenderTargets rt v)
                 \/ NoAttachment MaxNumRenderTargets rt).
  { destruct (view (m_depthTarget rt)) as [v|] eqn:Hd.
    - left. exists v. now left.
    - destruct (first_bound_or_none (m_colorTargets rt) MaxNumRenderTargets 0)
        as [(k & a & v & Hk & Hnth & Hv & Hlow) | Hc].
      + left. exists v. right. split; [exact Hd|].
        exists k, a. repeat split; try assumption; try lia.
        intros j a' Hj. apply Hlow. lia.
      + right. split; [exact Hd|]. intros i a Hi. apply Hc. lia. }
  repeat apply conj.
  - intros v Hv. apply (Hfirst v Hv).
  - intros Hno. apply (Hnone Hno).
  - intros Hh. destruct Hdec as [Hex | Hno]; [exact Hex|].
    apply Hnone in Hno as [_ Hno]. congruence.
  - intros [v Hv]. apply (Hfirst v Hv).
  - intros Hh. destruct Hdec as [[v Hv] | Hno]; [|exact Hno].
    apply Hfirst in Hv as [_ Hv]. congruence.
  - intros Hno. apply (Hnone Hno).
Qed.

End RenderTargetFacts.

(* ===================================================================== *)
(** ** The properties on the concrete frame *)
(* ===================================================================== *)

Section SceneFacts.
Import Binary32 Scene.
#[local] Existing Instance utility.
#[local] Existing Instance methods.

(** With temporal reuse off, pixel (8, 8) of the mirror scene writes its
    initial sample to both pages. *)
Lemma temporal_reuse_disabled_identity_witness :
  let candidate :=
    fst (buildInitialSample (E := externals noReuse) pixel (s_surface noReuse)
           {| primarySelectedIntegrationSurface := true |}) in
  filter is_store (main (E := externals noReuse) pixel)
  = [EvStoreGIReservoir candidate pixel 2; EvStoreGIReservoir candidate pixel 1].
Proof.
  exact (@temporal_reuse_disabled_identity float _ _ utility methods (externals noReuse) pixel
           eq_refl eq_refl eq_refl eq_refl).
Defined.

Lemma scene_methods_preserve_M : MethodsPreserveM (RM := methods).
Proof. repeat split. Qed.

(** In the mirror scene (history length 30, eight samples of history)
    every written reservoir has [M] between 1 and 30. *)
Lemma stored_M_within_history_length_witness :
  Forall (fun e => match e with
                   | EvStoreGIReservoir r _ _ => (1 <= Reservoir.M r <= 30)%Z
                   | _ => True
                   end)
         (main (E := externals (mirror false)) pixel).
Proof.
  apply Forall_forall. intros e Hin.
  destruct e as [r px page| | | |]; try exact I.
  apply (@stored_M_within_history_length float _ _ utility methods (externals (mirror false))
           (fun _ => Some history) (fun c => (floorZ (v2x c), floorZ (v2y c)))
           (fun _ _ _ => true) (fun _ p => p) (fun _ _ r => Reservoir.avgWeight r) pixel
           scene_methods_preserve_M) with (pixel := px) (page := page).
  - intros c t s g p. reflexivity.
  - intros p r0 Hp. injection Hp as <-. cbn. lia.
  - cbn. lia.
  - exact Hin.
Defined.

(** With a history length of zero the initial sample is still written
    with [M = 1], above the cap. *)
Lemma history_length_zero_exceeded :
  let candidate :=
    fst (buildInitialSample (E := externals noHistory) pixel (s_surface noHistory)
           {| primarySelectedIntegrationSurface := true |}) in
  let cap := temporalHistoryLength (cb (Externals := externals noHistory)) in
  In (EvStoreGIReservoir candidate pixel 2) (main (E := externals noHistory) pixel)
  /\ Reservoir.M candidate = 1%Z
  /\ cap = 0%Z
  /\ ~ (1 <= Reservoir.M candidate <= cap)%Z.
Proof.
  cbv zeta. refine (conj _ (conj _ (conj _ _))).
  - vm_compute. left. reflexivity.
  - vm_compute. reflexivity.
  - reflexivity.
  - vm_compute. intros [_ H]. apply H. reflexivity.
Qed.

(** On the rough surface the virtual sample is taken: hit one unit away,
    indirect path length two. *)
Lemma virtual_sample_repositions_witness :
  virtualSample (E := externals (rough false)) (s_surface (rough false)) (f 2 1) loadedSample
  = Reservoir.Build (v3 (f 33 16) (f (-1) 16) (f 1 2)) (v3 (f (-1) 1) (SFopp (f 0 1)) (SFopp (f 0 1)))
      (v3 (f 1 2) (f 1 2) (f 1 2)) (f 1 1) 1 (half_bits (f 12 10)).
Proof.
  rewrite (@virtual_sample_repositions float _ _ methods (externals (rough false))
             (s_surface (rough false)) (f 2 1) loadedSample);
    vm_compute; reflexivity.
Defined.

(** There, every condition of the sentence holds, and the new position is
    at distance 2 (the path length) from the surface, not at the hit
    position extended by 1.2 times the surplus. *)
Lemma virtual_sample_position_not_as_worded :
  let surface := s_surface (rough false) in
  (enableReSTIRGIVirtualSample (cb (Externals := externals (rough false))) >? 0)%Z = true
  /\ flt (RAB_RESTIR_GI_DELTA_ROUGHNESS (Externals := externals (rough false)))
         (Surface.isotropicRoughness (Surface.opaqueSurfaceMaterialInteraction surface)) = true
  /\ flt (fmul (length3 (sub3 (Reservoir.position loadedSample)
                              (Surface.position (Surface.minimalSurfaceInteraction surface))))
               (lit 101 100))
         (f 2 1) = true
  /\ Reservoir.position (virtualSample (E := externals (rough false)) surface (f 2 1) loadedSample)
     = v3 (f 33 16) (f (-1) 16) (f 1 2)
  /\ Reservoir.position (virtualSample (E := externals (rough false)) surface (f 2 1) loadedSample)
     <> claimedVirtualPosition surface (f 2 1) loadedSample.
Proof.
  cbv zeta. repeat apply conj; try (vm_compute; reflexivity).
  vm_compute. discriminate.
Qed.

(** The mirror at rest in the world moves two pixels on screen: its
    reflection ray is traced. *)
Lemma reflection_path_gate_witness :
  existsb is_reflection_ray (shade (E := externals fixedMirror) pixel (s_surface fixedMirror)) = true.
Proof.
  rewrite (proj2 (proj2 (proj2
    (@reflection_path_gate float _ _ utility methods (externals fixedMirror) pixel
       (s_surface fixedMirror) (f 1 1) (Vec2 (f 21 2) (f 17 2)) (splat2 (f 1 100)) O)))).
  vm_compute. reflexivity.
Defined.

(** The mirror carried with the camera: reflection reprojection is
    enabled, the reflection weight is 1, and the reflection-based target
    (12.5, 8.5) lies four pixels from the naive one (8.5, 8.5); yet the
    block is not entered and no reflection ray is traced, because the naive
    target is the current pixel centre. *)
Lemma reflection_gate_not_as_worded :
  let surface := s_surface (mirror false) in
  let weight := reflectionWeightOf (E := externals (mirror false)) surface in
  let naive := nr_prevPixelCenter (naiveReprojection (E := externals (mirror false)) pixel surface) in
  weight = f 1 1
  /\ naive = Vec2 (f 17 2) (f 17 2)
  /\ prevReflectionCenterOf (E := externals (mirror false)) surface = Vec2 (f 25 2) (f 17 2)
  /\ claimedReflectionGate (E := externals (mirror false)) surface weight naive = true
  /\ reflectionReprojectionEnabled (E := externals (mirror false)) pixel weight naive = false
  /\ existsb is_reflection_ray (main (E := externals (mirror false)) pixel) = false.
Proof.
  cbv zeta. repeat apply conj; vm_compute; reflexivity.
Qed.

(** On the mirror at rest the naive target (10.5, 8.5) and the
    reflection-based one (12.5, 8.5) are two pixels apart, the parallax
    threshold is one pixel and the random number 1/2 is below the weight 1:
    the reflection-based target is selected. *)
Lemma reflection_target_selection_witness :
  let rp := snd (reproject (E := externals fixedMirror) pixel (s_surface fixedMirror)) in
  rp_prevPixelCenter rp = Vec2 (f 25 2) (f 17 2)
  /\ rp_prevBackupPixelCenter rp = Vec2 (f 21 2) (f 17 2)
  /\ rp_depthThreshold rp = Vec2 (f 25 100) (f 1 100)
  /\ rp_discardEnlargedPixels rp = false.
Proof.
  cbv zeta.
  destruct (@reflection_target_selection float _ _ (externals fixedMirror) pixel
              (s_surface fixedMirror) (f 1 1) (Vec2 (f 21 2) (f 17 2)) (splat2 (f 1 100)) O)
    as [Hsel _].
  destruct (Hsel eq_refl eq_refl) as (Hb & _ & _ & Hyes & _).
  destruct (Hyes eq_refl) as (Hc & Hd & He).
  repeat apply conj.
  - etransitivity; [exact Hc|]. vm_compute. reflexivity.
  - etransitivity; [exact Hb|]. vm_compute. reflexivity.
  - etransitivity; [exact Hd|]. vm_compute. reflexivity.
  - exact He.
Defined.


(** The mirror scene runs in pairwise ray-traced mode and merges history:
    the visibility ray is traced. *)
Lemma visibility_revalidation_gate_witness :
  existsb is_visibility_revalidation
    (shade (E := externals (mirror false)) pixel (s_surface (mirror false))) = true.
Proof.
  pose proof (proj2 (proj2 (proj2
    (@visibility_revalidation_gate float _ _ utility methods (externals (mirror false)) pixel
       (s_surface (mirror false)) loadedSample true false)))) as H.
  cbv zeta in H.
  destruct (temporalResampling _ _ _) as [[[r0 rng'] sim0] init0] eqn:Heq in H.
  rewrite H. vm_compute in Heq. injection Heq as _ _ <- <-. reflexivity.
Defined.


End SceneFacts.

Section ExactExamples.
Import Exact.
#[local] Existing Instance Binary32.scalar.
Local Open Scope Q_scope.



End ExactExamples.

Section RenderTargetExamples.
Import Dxvk.

Lemma getImageSize_first_attachment_witness :
  getImageSize 8 colorOnly = Some {| fb_width := 640; fb_height := 480; fb_layers := 6 |}
  /\ hasAttachments 8 colorOnly = Some true.
Proof.
  destruct (@getImageSize_first_attachment 8 colorOnly eq_refl) as (Hsize & _ & Hhas & _).
  assert (Hfirst : FirstAttachment 8 colorOnly view640).
  { right. split; [reflexivity|].
    exists 2%nat, {| view := Some view640; layout := 2 |}.
    repeat apply conj; try reflexivity; try lia.
    intros j a' Hj Hnth.
    destruct j as [|[|j]]; [injection Hnth as <-; reflexivity|injection Hnth as <-; reflexivity|lia]. }
  split.
  - exact (Hsize view640 Hfirst).
  - apply Hhas. exists view640. exact Hfirst.
Defined.

End RenderTargetExamples.

(* ===================================================================== *)
(** ** [dxvk_framebuffer.cpp]: attachments, formats and the framebuffer *)
(* ===================================================================== *)

From Stdlib Require Strings.String.

(** The message of the [DxvkError] the constructor throws (line 104). *)
Module Messages.
Import Strings.String.
Definition createFailed : string :=
  "DxvkFramebuffer::DxvkFramebuffer: Failed to create framebuffer object"%string.
End Messages.

Module Framebuffer.
Import Dxvk.

(** [DxvkRenderTargetFormat]: the four values of the aggregate built in
    [renderPassFormat], in order (view format, image layout twice, target
    layout). *)
Record DxvkRenderTargetFormat : Type := {
  rtf_format : Z;
  rtf_initialLayout : Z;
  rtf_finalLayout : Z;
  rtf_layout : Z
}.

(** One mutation of the [DxvkRenderPassFormat] under construction. *)
Inductive FormatCall : Type :=
| SetColorFormat (i : nat) (fmt : DxvkRenderTargetFormat)
| SetSampleCount (samples : Z)
| SetDepthFormat (fmt : DxvkRenderTargetFormat).

(** [VkFramebufferCreateInfo] as the constructor fills it; [pAttachments]
    with [attachmentCount] is the vector [views]. *)
Record VkFramebufferCreateInfo (VkRenderPass VkImageView : Type) : Type := {
  sType : Z;
  pNext : option unit;
  flags : Z;
  renderPass : VkRenderPass;
  attachmentCount : Z;
  pAttachments : list VkImageView;
  ci_width : Z;
  ci_height : Z;
  ci_layers : Z
}.

(** The state of a constructed [DxvkFramebuffer]. *)
Record DxvkFramebuffer (RenderPass VkFramebuffer : Type) : Type := {
  m_renderPass : RenderPass;
  m_renderTargets : DxvkRenderTargets;
  m_framebufferSize : DxvkFramebufferSize;
  m_framebuffer : VkFramebuffer
}.

(** How the constructor ends: normally, or by one of the two exceptions. *)
Inductive Construction (A : Type) : Type :=
| Constructed (fb : A)
| ThrowsDxvkError (message : String.string)
| ThrowsOutOfRange.
Arguments ThrowsDxvkError {A} message.
Arguments ThrowsOutOfRange {A}.

Definition VK_SUCCESS : Z := 0.
Definition VK_STRUCTURE_TYPE_FRAMEBUFFER_CREATE_INFO : Z := 37.

Section Targets.
(** [MaxNumRenderTargets], the size of [m_colorTargets]. *)
Variable MaxNumRenderTargets : nat.
(** [VkImageView] handles and [DxvkImageView::handle()]. *)
Variable VkImageView : Type.
Variable handle : DxvkImageView -> VkImageView.
(** [view->info().format], [view->imageInfo().layout] and
    [view->imageInfo().sampleCount]. *)
Variable viewFormat : DxvkImageView -> Z.
Variable imageLayout : DxvkImageView -> Z.
Variable imageSampleCount : DxvkImageView -> Z.

(** Lines 42-45: the loop over the colour targets from index [i], with [n]
    iterations left; [push_back] appends. *)
Fixpoint getAttachmentsLoop (targets : list DxvkAttachment) (i n : nat) (result : list VkImageView)
    : option (list VkImageView) :=
  match n with
  | O => Some result
  | S n' =>
      match nth_error targets i with
      | None => None
      | Some a =>
          getAttachmentsLoop targets (S i) n'
            (match view a with Some v => result ++ [handle v] | None => result end)
      end
  end.

(** Lines 36-48. *)
Definition getAttachments (rt : DxvkRenderTargets) : option (list VkImageView) :=
  let result := [] in
  let result :=
    match view (m_depthTarget rt) with Some v => result ++ [handle v] | None => result end in
  getAttachmentsLoop (m_colorTargets rt) 0 MaxNumRenderTargets result.

Section Format.
(** [DxvkRenderPassFormat] with its default constructor and setters. *)
Variable RenderPassFormat : Type.
Variable defaultFormat : RenderPassFormat.
Variable setColorFormat : nat -> DxvkRenderTargetFormat -> RenderPassFormat -> RenderPassFormat.
Variable setSampleCount : Z -> RenderPassFormat -> RenderPassFormat.
Variable setDepthFormat : DxvkRenderTargetFormat -> RenderPassFormat -> RenderPassFormat.

(** Lines 14-19 and 24-28: the format aggregate of a bound target. *)
Definition targetFormat (v : DxvkImageView) (a : DxvkAttachment) : DxvkRenderTargetFormat :=
  {| rtf_format := viewFormat v;
     rtf_initialLayout := imageLayout v;
     rtf_finalLayout := imageLayout v;
     rtf_layout := layout a |}.

(** Lines 12-21. *)
Fixpoint renderPassFormatLoop (targets : list DxvkAttachment) (i n : nat) (result : RenderPassFormat)
    : option RenderPassFormat :=
  match n with
  | O => Some result
  | S n' =>
      match nth_error targets i with
      | None => None
      | Some a =>
          renderPassFormatLoop targets (S i) n'
            (match view a with
             | Some v => setSampleCount (imageSampleCount v) (setColorFormat i (targetFormat v a) result)
             | None => result
             end)
      end
  end.

(** Lines 9-33. *)
Definition renderPassFormat (rt : DxvkRenderTargets) : option RenderPassFormat :=
  match renderPassFormatLoop (m_colorTargets rt) 0 MaxNumRenderTargets defaultFormat with
  | None => None
  | Some result =>
      Some (match view (m_depthTarget rt) with
            | Some v =>
                setSampleCount (imageSampleCount v)
                  (setDepthFormat (targetFormat v (m_depthTarget rt)) result)
            | None => result
            end)
  end.

(** A mutation applied to a format. *)
Definition applyCall (result : RenderPassFormat) (c : FormatCall) : RenderPassFormat :=
  match c with
  | SetColorFormat i fmt => setColorFormat i fmt result
  | SetSampleCount s => setSampleCount s result
  | SetDepthFormat fmt => setDepthFormat fmt result
  end.

End Format.

(** The mutations a bound target at colour index [i] causes. *)
Definition colorCallsAt (i : nat) (a : DxvkAttachment) : list FormatCall :=
  match view a with
  | Some v => [SetColorFormat i (targetFormat v a); SetSampleCount (imageSampleCount v)]
  | None => []
  end.

(** The mutations of the colour targets [i, i + n), by increasing index. *)
Fixpoint colorCalls (targets : list DxvkAttachment) (i n : nat) : list FormatCall :=
  match n with
  | O => []
  | S n' =>
      match nth_error targets i with
      | Some a => colorCallsAt i a ++ colorCalls targets (S i) n'
      | None => []
      end
  end.

Definition depthCalls (a : DxvkAttachment) : list FormatCall :=
  match view a with
  | Some v => [SetDepthFormat (targetFormat v a); SetSampleCount (imageSampleCount v)]
  | None => []
  end.

(** All mutations of [renderPassFormat], in order. *)
Definition formatCalls (rt : DxvkRenderTargets) : list FormatCall :=
  colorCalls (m_colorTargets rt) 0 MaxNumRenderTargets ++ depthCalls (m_depthTarget rt).

(** The sample count a sequence of mutations leaves: that of the last
    [SetSampleCount], if any. *)
Fixpoint finalSampleCount (calls : list FormatCall) (current : option Z) : option Z :=
  match calls with
  | [] => current
  | SetSampleCount s :: rest => finalSampleCount rest (Some s)
  | _ :: rest => finalSampleCount rest current
  end.

(** The views of the bound colour targets, by increasing index. *)
Definition boundViews (targets : list DxvkAttachment) : list DxvkImageView :=
  flat_map (fun a => match view a with Some v => [v] | None => [] end) targets.

Definition depthViews (rt : DxvkRenderTargets) : list DxvkImageView :=
  match view (m_depthTarget rt) with Some v => [v] | None => [] end.

Section Construct.
Variable RenderPass : Type.
Variable VkRenderPass : Type.
Variable VkFramebuffer : Type.
(** [renderPass->handle()]. *)
Variable renderPassHandle : RenderPass -> VkRenderPass.
(** [vkCreateFramebuffer] on the device: the [VkResult] and the handle it
    writes. *)
Variable vkCreateFramebuffer :
  VkFramebufferCreateInfo VkRenderPass VkImageView -> Z * VkFramebuffer.

(** Lines 90-101: the create info. *)
Definition createInfo (renderPass0 : RenderPass) (size : DxvkFramebufferSize)
    (views : list VkImageView) : VkFramebufferCreateInfo VkRenderPass VkImageView :=
  {| sType := VK_STRUCTURE_TYPE_FRAMEBUFFER_CREATE_INFO;
     pNext := None;
     flags := 0;
     renderPass := renderPassHandle renderPass0;
     attachmentCount := Z.of_nat (length views) mod 2 ^ 32;
     pAttachments := views;
     ci_width := fb_width size;
     ci_height := fb_height size;
     ci_layers := fb_layers size |}.

(** Lines 82-105: the constructor. *)
Definition construct (renderPass0 : RenderPass) (renderTargets : DxvkRenderTargets)
    : Construction (DxvkFramebuffer RenderPass VkFramebuffer) :=
  match getImageSize MaxNumRenderTargets renderTargets with
  | None => ThrowsOutOfRange
  | Some size =>
      match getAttachments renderTargets with
      | None => ThrowsOutOfRange
      | Some views =>
          let '(result, framebuffer) := vkCreateFramebuffer (createInfo renderPass0 size views) in
          if negb (result =? VK_SUCCESS)
          then ThrowsDxvkError Messages.createFailed
          else Constructed {| m_renderPass := renderPass0;
                              m_renderTargets := renderTargets;
                              m_framebufferSize := size;
                              m_framebuffer := framebuffer |}
      end
  end.

(** Lines 108-111: the handle the destructor passes to
    [vkDestroyFramebuffer]. *)
Definition destroyed (fb : DxvkFramebuffer RenderPass VkFramebuffer) : VkFramebuffer :=
  m_framebuffer fb.

End Construct.
End Targets.

(** A view of 320x240 with one layer and four samples. *)
Definition view320 : DxvkImageView :=
  {| mipLevelExtent := fun level => {| width := Z.shiftr 320 level; height := Z.shiftr 240 level; depth := 1 |};
     numLayers := 1 |}.

(** Depth bound to [view320]; colours 2 and 5 bound to [view640]. *)
Definition depthAndColors : DxvkRenderTargets :=
  {| m_depthTarget := {| view := Some view320; layout := 3 |};
     m_colorTargets := [unbound; unbound; {| view := Some view640; layout := 2 |};
                        unbound; unbound; {| view := Some view640; layout := 2 |};
                        unbound; unbound] |}.

End Framebuffer.

Section FramebufferFacts.
Import Dxvk Framebuffer.
Variable MaxNumRenderTargets : nat.
Variable VkImageView : Type.
Variable handle : DxvkImageView -> VkImageView.
Variable viewFormat : DxvkImageView -> Z.
Variable imageLayout : DxvkImageView -> Z.
Variable imageSampleCount : DxvkImageView -> Z.

(** The views of one target. *)
Definition viewsOf (a : DxvkAttachment) : list DxvkImageView :=
  match view a with Some v => [v] | None => [] end.

(** The colour targets [i, i + n) of the array. *)
Definition segment (targets : list DxvkAttachment) (i n : nat) : list DxvkAttachment :=
  firstn n (skipn i targets).

Lemma skipn_nth_error (A : Type) (l : list A) (i : nat) (a : A) :
  nth_error l i = Some a -> skipn i l = a :: skipn (S i) l.
Proof.
  revert i. induction l as [|x l IH]; intros [|i] H; try discriminate.
  - injection H as ->. reflexivity.
  - cbn in H. apply IH in H. exact H.
Qed.

Lemma segment_step (targets : list DxvkAttachment) (i n : nat) (a : DxvkAttachment) :
  nth_error targets i = Some a -> segment targets i (S n) = a :: segment targets (S i) n.
Proof.
  intros H. unfold segment. rewrite (@skipn_nth_error _ targets i a H). reflexivity.
Qed.

Lemma segment_all (targets : list DxvkAttachment) :
  segment targets 0 (length targets) = targets.
Proof. unfold segment. cbn [skipn]. apply firstn_all. Qed.

Lemma in_range (targets : list DxvkAttachment) (i n : nat) :
  (i + S n <= length targets)%nat -> exists a, nth_error targets i = Some a.
Proof.
  intros H. destruct (nth_error targets i) as [a|] eqn:Hi; [now exists a|].
  apply nth_error_None in Hi. lia.
Qed.

Lemma boundViews_cons (a : DxvkAttachment) (l : list DxvkAttachment) :
  boundViews (a :: l) = viewsOf a ++ boundViews l.
Proof. reflexivity. Qed.

(** The four loops over a range inside the array, in terms of the bound
    views of the range. *)
Lemma getAttachmentsLoop_views (targets : list DxvkAttachment) (n i : nat) (result : list VkImageView) :
  (i + n <= length targets)%nat ->
  getAttachmentsLoop handle targets i n result
  = Some (result ++ map handle (boundViews (segment targets i n))).
Proof.
  revert i result. induction n as [|n IH]; intros i result Hlen.
  - cbn. now rewrite app_nil_r.
  - destruct (@in_range targets i n Hlen) as [a Ha].
    cbn [getAttachmentsLoop]. rewrite Ha, (@segment_step targets i n a Ha), boundViews_cons, IH by lia.
    unfold viewsOf. destruct (view a); cbn [map app]; [rewrite <- app_assoc|]; reflexivity.
Qed.

Lemma colorImageSize_views (targets : list DxvkAttachment) (n i : nat) :
  (i + n <= length targets)%nat ->
  colorImageSize targets i n
  = Some (match boundViews (segment targets i n) with
          | v :: _ => renderTargetSize v
          | [] => {| fb_width := 0; fb_height := 0; fb_layers := 0 |}
          end).
Proof.
  revert i. induction n as [|n IH]; intros i Hlen; [reflexivity|].
  destruct (@in_range targets i n Hlen) as [a Ha].
  cbn [colorImageSize]. rewrite Ha, (@segment_step targets i n a Ha), boundViews_cons.
  unfold viewsOf. destruct (view a); [reflexivity|]. cbn [app]. apply IH. lia.
Qed.

Lemma hasAttachmentsLoop_views (targets : list DxvkAttachment) (n i : nat) :
  (i + n <= length targets)%nat ->
  hasAttachmentsLoop targets i n false
  = Some (match boundViews (segment targets i n) with _ :: _ => true | [] => false end).
Proof.
  revert i. induction n as [|n IH]; intros i Hlen; [reflexivity|].
  destruct (@in_range targets i n Hlen) as [a Ha].
  cbn [hasAttachmentsLoop]. rewrite Ha, (@segment_step targets i n a Ha), boundViews_cons.
  unfold viewsOf, is_bound. destruct (view a); cbn [orb app].
  - apply hasAttachmentsLoop_true.
  - apply IH. lia.
Qed.

(** The views of all bound attachments: depth first, then the colours by
    increasing index. *)
Definition attachedViews (rt : DxvkRenderTargets) : list DxvkImageView :=
  depthViews rt ++ boundViews (m_colorTargets rt).

Lemma getAttachments_views (rt : DxvkRenderTargets) :
  length (m_colorTargets rt) = MaxNumRenderTargets ->
  getAttachments MaxNumRenderTargets handle rt = Some (map handle (attachedViews rt)).
Proof.
  intros Hlen. unfold getAttachments. rewrite getAttachmentsLoop_views by lia.
  rewrite <- Hlen, segment_all. unfold attachedViews, depthViews.
  destruct (view (m_depthTarget rt)); cbn [app map]; reflexivity.
Qed.

Lemma getImageSize_views (rt : DxvkRenderTargets) :
  length (m_colorTargets rt) = MaxNumRenderTargets ->
  getImageSize MaxNumRenderTargets rt
  = Some (match attachedViews rt with
          | v :: _ => renderTargetSize v
          | [] => {| fb_width := 0; fb_height := 0; fb_layers := 0 |}
          end).
Proof.
  intros Hlen. unfold getImageSize, attachedViews, depthViews.
  destruct (view (m_depthTarget rt)); cbn [app]; [reflexivity|].
  rewrite colorImageSize_views by lia. rewrite <- Hlen, segment_all. reflexivity.
Qed.

Lemma hasAttachments_views (rt : DxvkRenderTargets) :
  length (m_colorTargets rt) = MaxNumRenderTargets ->
  hasAttachments MaxNumRenderTargets rt
  = Some (match attachedViews rt with _ :: _ => true | [] => false end).
Proof.
  intros Hlen. unfold hasAttachments, attachedViews, depthViews, is_bound.
  destruct (view (m_depthTarget rt)); cbn [app].
  - apply hasAttachmentsLoop_true.
  - rewrite hasAttachmentsLoop_views by lia. rewrite <- Hlen, segment_all. reflexivity.
Qed.

Lemma attachedViews_length (rt : DxvkRenderTargets) :
  (length (attachedViews rt) <= length (m_colorTargets rt) + 1)%nat.
Proof.
  unfold attachedViews. rewrite length_app.
  assert (Hd : (length (depthViews rt) <= 1)%nat)
    by (unfold depthViews; destruct (view (m_depthTarget rt)); cbn; lia).
  assert (Hb : forall l, (length (boundViews l) <= length l)%nat).
  { induction l as [|a l IH]; [cbn; lia|].
    rewrite boundViews_cons, length_app. unfold viewsOf. destruct (view a); cbn; lia. }
  specialize (Hb (m_colorTargets rt)). lia.
Qed.

(** X1.  [getAttachments] never throws on a colour array of
    [MaxNumRenderTargets] entries, and returns the handles of the bound
    views only: the depth view first, then the colour views by increasing
    index; so there are at most [MaxNumRenderTargets + 1] handles, and none
    for a null view. *)
Theorem getAttachments_bound_views (rt : DxvkRenderTargets) :
  length (m_colorTargets rt) = MaxNumRenderTargets ->
  getAttachments MaxNumRenderTargets handle rt = Some (map handle (attachedViews rt))
  /\ (length (attachedViews rt) <= MaxNumRenderTargets + 1)%nat
  /\ (forall v, In v (attachedViews rt) <->
        view (m_depthTarget rt) = Some v
        \/ exists i a, nth_error (m_colorTargets rt) i = Some a /\ view a = Some v).
Proof.
  intros Hlen. refine (conj _ (conj _ _)).
  - apply getAttachments_views, Hlen.
  - rewrite <- Hlen. apply attachedViews_length.
  - intros v. unfold attachedViews. rewrite in_app_iff. unfold boundViews. rewrite in_flat_map.
    split.
    + intros [Hd | (a & Ha & Hv)].
      * left. unfold depthViews in Hd. destruct (view (m_depthTarget rt)); [|contradiction].
        destruct Hd as [->|[]]. reflexivity.
      * right. apply In_nth_error in Ha as [i Hi]. exists i, a. split; [exact Hi|].
        destruct (view a); [|contradiction]. destruct Hv as [->|[]]. reflexivity.
    + intros [Hd | (i & a & Hi & Hv)].
      * left. unfold depthViews. rewrite Hd. now left.
      * right. exists a. split; [eapply nth_error_In, Hi|]. rewrite Hv. now left.
Qed.

(** X2.  [hasAttachments] agrees with [getAttachments]: it is true exactly
    when the attachment list is not empty. *)
Theorem hasAttachments_iff_attachments (rt : DxvkRenderTargets) :
  length (m_colorTargets rt) = MaxNumRenderTargets ->
  (hasAttachments MaxNumRenderTargets rt = Some true
   <-> exists h rest, getAttachments MaxNumRenderTargets handle rt = Some (h :: rest))
  /\ (hasAttachments MaxNumRenderTargets rt = Some false
      <-> getAttachments MaxNumRenderTargets handle rt = Some []).
Proof.
  intros Hlen.
  pose proof (getAttachments_views rt Hlen) as Hg.
  pose proof (hasAttachments_views rt Hlen) as Hh.
  rewrite Hg, Hh. destruct (attachedViews rt) as [|v vs]; cbn [map]; split; split.
  - discriminate.
  - intros (h & rest & H). discriminate.
  - reflexivity.
  - reflexivity.
  - intros _. now exists (handle v), (map handle vs).
  - reflexivity.
  - discriminate.
  - discriminate.
Qed.

(** X3.  The size [getImageSize] reports is the size of the view whose
    handle [getAttachments] lists first; it is the zero size exactly in the
    case of an empty attachment list. *)
Theorem image_size_of_first_attachment (rt : DxvkRenderTargets) :
  length (m_colorTargets rt) = MaxNumRenderTargets ->
  match attachedViews rt with
  | v :: rest =>
      getAttachments MaxNumRenderTargets handle rt = Some (handle v :: map handle rest)
      /\ getImageSize MaxNumRenderTargets rt = Some (renderTargetSize v)
  | [] =>
      getAttachments MaxNumRenderTargets handle rt = Some []
      /\ getImageSize MaxNumRenderTargets rt
         = Some {| fb_width := 0; fb_height := 0; fb_layers := 0 |}
  end.
Proof.
  intros Hlen.
  pose proof (getAttachments_views rt Hlen) as Hg.
  pose proof (getImageSize_views rt Hlen) as Hs.
  rewrite Hg, Hs. destruct (attachedViews rt); split; reflexivity.
Qed.

Section FormatFacts.
Variable RenderPassFormat : Type.
Variable defaultFormat : RenderPassFormat.
Variable setColorFormat : nat -> DxvkRenderTargetFormat -> RenderPassFormat -> RenderPassFormat.
Variable setSampleCount : Z -> RenderPassFormat -> RenderPassFormat.
Variable setDepthFormat : DxvkRenderTargetFormat -> RenderPassFormat -> RenderPassFormat.

Lemma renderPassFormatLoop_calls (targets : list DxvkAttachment) (n i : nat) (result : RenderPassFormat) :
  (i + n <= length targets)%nat ->
  renderPassFormatLoop viewFormat imageLayout imageSampleCount setColorFormat setSampleCount
    targets i n result
  = Some (fold_left (applyCall setColorFormat setSampleCount setDepthFormat)
            (colorCalls viewFormat imageLayout imageSampleCount targets i n) result).
Proof.
  revert i result. induction n as [|n IH]; intros i result Hlen; [reflexivity|].
  destruct (@in_range targets i n Hlen) as [a Ha].
  cbn [renderPassFormatLoop colorCalls]. rewrite Ha, IH by lia.
  rewrite fold_left_app. unfold colorCallsAt. destruct (view a); reflexivity.
Qed.

Lemma renderPassFormat_fold (rt : DxvkRenderTargets) :
  length (m_colorTargets rt) = MaxNumRenderTargets ->
  renderPassFormat MaxNumRenderTargets viewFormat imageLayout imageSampleCount defaultFormat
    setColorFormat setSampleCount setDepthFormat rt
  = Some (fold_left (applyCall setColorFormat setSampleCount setDepthFormat)
            (formatCalls MaxNumRenderTargets viewFormat imageLayout imageSampleCount rt) defaultFormat).
Proof.
  intros Hlen. unfold renderPassFormat, formatCalls. rewrite renderPassFormatLoop_calls by lia.
  rewrite fold_left_app. unfold depthCalls. destruct (view (m_depthTarget rt)); reflexivity.
Qed.

(** X4.  [renderPassFormat] never throws on a colour array of
    [MaxNumRenderTargets] entries; whatever the setters do, its result is
    the default format mutated by [formatCalls]: for each bound colour
    target by increasing index its format and then its sample count, and
    last the depth format and the depth sample count.  With nothing bound
    the default format is returned untouched. *)
Theorem renderPassFormat_calls (rt : DxvkRenderTargets) :
  length (m_colorTargets rt) = MaxNumRenderTargets ->
  renderPassFormat MaxNumRenderTargets viewFormat imageLayout imageSampleCount defaultFormat
    setColorFormat setSampleCount setDepthFormat rt
  = Some (fold_left (applyCall setColorFormat setSampleCount setDepthFormat)
            (formatCalls MaxNumRenderTargets viewFormat imageLayout imageSampleCount rt) defaultFormat)
  /\ (attachedViews rt = [] ->
      renderPassFormat MaxNumRenderTargets viewFormat imageLayout imageSampleCount defaultFormat
        setColorFormat setSampleCount setDepthFormat rt
      = Some defaultFormat).
Proof.
  intros Hlen.
  pose proof (renderPassFormat_fold rt Hlen) as Hr.
  split; [exact Hr|].
  intros Hnone. rewrite Hr. f_equal.
  unfold attachedViews in Hnone. apply app_eq_nil in Hnone as [Hd Hc].
  unfold formatCalls, depthCalls. unfold depthViews in Hd.
  destruct (view (m_depthTarget rt)); [discriminate|]. rewrite app_nil_r.
  assert (Hcalls : forall n i, (i + n <= length (m_colorTargets rt))%nat ->
            boundViews (segment (m_colorTargets rt) i n) = [] ->
            colorCalls viewFormat imageLayout imageSampleCount (m_colorTargets rt) i n = []).
  { induction n as [|n IH]; intros i Hi Hb; [reflexivity|].
    destruct (@in_range (m_colorTargets rt) i n Hi) as [a Ha].
    rewrite (@segment_step (m_colorTargets rt) i n a Ha), boundViews_cons in Hb.
    apply app_eq_nil in Hb as [Ha0 Hrest].
    cbn [colorCalls]. rewrite Ha, IH by (try lia; exact Hrest).
    unfold colorCallsAt. unfold viewsOf in Ha0. destruct (view a); [discriminate|reflexivity]. }
  rewrite Hcalls; [reflexivity|lia|]. rewrite <- Hlen, segment_all. exact Hc.
Qed.

End FormatFacts.

Lemma finalSampleCount_app (l1 l2 : list FormatCall) (current : option Z) :
  finalSampleCount (l1 ++ l2) current = finalSampleCount l2 (finalSampleCount l1 current).
Proof.
  revert current. induction l1 as [|c l1 IH]; intros current; [reflexivity|].
  destruct c; cbn; apply IH.
Qed.

Lemma finalSampleCount_colorCalls (targets : list DxvkAttachment) (n i : nat) (current : option Z) :
  (i + n <= length targets)%nat ->
  finalSampleCount (colorCalls viewFormat imageLayout imageSampleCount targets i n) current
  = match rev (boundViews (segment targets i n)) with
    | v :: _ => Some (imageSampleCount v)
    | [] => current
    end.
Proof.
  revert i current. induction n as [|n IH]; intros i current Hlen; [reflexivity|].
  destruct (@in_range targets i n Hlen) as [a Ha].
  cbn [colorCalls]. rewrite Ha, (@segment_step targets i n a Ha), boundViews_cons.
  rewrite finalSampleCount_app, IH by lia.
  rewrite rev_app_distr.
  destruct (rev (boundViews (segment targets (S i) n))) as [|w ws]; [|reflexivity].
  cbn [app]. unfold colorCallsAt, viewsOf. destruct (view a); reflexivity.
Qed.

(** The log of setter calls: [renderPassFormat] run on the list of
    mutations, each setter appending its own. *)
Definition renderPassFormatLog (rt : DxvkRenderTargets) : option (list FormatCall) :=
  renderPassFormat MaxNumRenderTargets viewFormat imageLayout imageSampleCount []
    (fun i fmt log => log ++ [SetColorFormat i fmt])
    (fun s log => log ++ [SetSampleCount s])
    (fun fmt log => log ++ [SetDepthFormat fmt]) rt.

Lemma fold_left_log (calls acc : list FormatCall) :
  fold_left (applyCall (fun i fmt log => log ++ [SetColorFormat i fmt])
                       (fun s log => log ++ [SetSampleCount s])
                       (fun fmt log => log ++ [SetDepthFormat fmt])) calls acc
  = acc ++ calls.
Proof.
  revert acc. induction calls as [|c calls IH]; intros acc; [now rewrite app_nil_r|].
  cbn [fold_left]. rewrite IH. destruct c; cbn [applyCall]; now rewrite <- app_assoc.
Qed.

Lemma renderPassFormatLog_calls (rt : DxvkRenderTargets) :
  length (m_colorTargets rt) = MaxNumRenderTargets ->
  renderPassFormatLog rt
  = Some (formatCalls MaxNumRenderTargets viewFormat imageLayout imageSampleCount rt).
Proof.
  intros Hlen. unfold renderPassFormatLog.
  rewrite (renderPassFormat_fold [] _ _ _ rt Hlen), fold_left_log. reflexivity.
Qed.

Lemma colorCalls_in_color (targets : list DxvkAttachment) (n i j : nat) (fmt : DxvkRenderTargetFormat) :
  (i + n <= length targets)%nat ->
  In (SetColorFormat j fmt) (colorCalls viewFormat imageLayout imageSampleCount targets i n)
  <-> (i <= j < i + n)%nat
      /\ exists a v, nth_error targets j = Some a /\ view a = Some v
                     /\ fmt = targetFormat viewFormat imageLayout v a.
Proof.
  revert i. induction n as [|n IH]; intros i Hlen.
  - cbn. split; [contradiction|intros [H _]; lia].
  - destruct (@in_range targets i n Hlen) as [a Ha].
    cbn [colorCalls]. rewrite Ha, in_app_iff, IH by lia. split.
    + intros [Hin | (Hj & a' & v & H1 & H2 & H3)].
      * unfold colorCallsAt in Hin. destruct (view a) as [v|] eqn:Hv; [|contradiction].
        destruct Hin as [Hin | [Hin | []]]; [|discriminate].
        injection Hin as <- <-. split; [lia|]. now exists a, v.
      * split; [lia|]. now exists a', v.
    + intros (Hj & a' & v & H1 & H2 & H3).
      destruct (Nat.eq_dec j i) as [->|Hne].
      * left. rewrite Ha in H1. injection H1 as <-. unfold colorCallsAt. rewrite H2, H3. now left.
      * right. split; [lia|]. now exists a', v.
Qed.

Lemma colorCalls_no_depth (targets : list DxvkAttachment) (n i : nat) (fmt : DxvkRenderTargetFormat) :
  ~ In (SetDepthFormat fmt) (colorCalls viewFormat imageLayout imageSampleCount targets i n).
Proof.
  revert i. induction n as [|n IH]; intros i; [intros []|].
  cbn [colorCalls]. destruct (nth_error targets i) as [a|]; [|intros []].
  rewrite in_app_iff. intros [Hin | Hin]; [|exact (IH _ Hin)].
  unfold colorCallsAt in Hin. destruct (view a); [|contradiction].
  destruct Hin as [Hin | [Hin | []]]; discriminate.
Qed.

(** X5.  The sample count [renderPassFormat] sets last is the depth
    target's when the depth view is non-null; otherwise it is that of the
    bound colour target of highest index; with nothing bound no sample
    count is set at all. *)
Theorem sample_count_precedence (rt : DxvkRenderTargets) :
  length (m_colorTargets rt) = MaxNumRenderTargets ->
  exists calls,
    renderPassFormatLog rt = Some calls
    /\ finalSampleCount calls None
       = match depthViews rt with
         | v :: _ => Some (imageSampleCount v)
         | [] => match rev (boundViews (m_colorTargets rt)) with
                 | v :: _ => Some (imageSampleCount v)
                 | [] => None
                 end
         end.
Proof.
  intros Hlen. eexists. split; [apply renderPassFormatLog_calls, Hlen|].
  unfold formatCalls. rewrite finalSampleCount_app, finalSampleCount_colorCalls by lia.
  rewrite <- Hlen, segment_all. unfold depthCalls, depthViews.
  destruct (view (m_depthTarget rt)); reflexivity.
Qed.

(** X6.  [renderPassFormat] sets a colour format exactly for the bound
    colour targets, at the target's own index and with the view's format,
    the image layout as both initial and final layout, and the target's
    layout; it sets a depth format exactly when the depth view is non-null,
    built the same way. *)
Theorem formats_of_bound_targets (rt : DxvkRenderTargets) :
  length (m_colorTargets rt) = MaxNumRenderTargets ->
  exists calls,
    renderPassFormatLog rt = Some calls
    /\ (forall i fmt,
          In (SetColorFormat i fmt) calls
          <-> exists a v, nth_error (m_colorTargets rt) i = Some a /\ view a = Some v
                /\ fmt = {| rtf_format := viewFormat v;
                            rtf_initialLayout := imageLayout v;
                            rtf_finalLayout := imageLayout v;
                            rtf_layout := layout a |})
    /\ (forall fmt,
          In (SetDepthFormat fmt) calls
          <-> exists v, view (m_depthTarget rt) = Some v
                /\ fmt = {| rtf_format := viewFormat v;
                            rtf_initialLayout := imageLayout v;
                            rtf_finalLayout := imageLayout v;
                            rtf_layout := layout (m_depthTarget rt) |}).
Proof.
  intros Hlen. eexists. split; [apply renderPassFormatLog_calls, Hlen|]. split.
  - intros i fmt. unfold formatCalls. rewrite in_app_iff, colorCalls_in_color by lia. split.
    + intros [(_ & a & v & H) | Hd]; [now exists a, v|].
      unfold depthCalls in Hd. destruct (view (m_depthTarget rt)); [|contradiction].
      destruct Hd as [Hd | [Hd | []]]; discriminate.
    + intros (a & v & Hi & Hv & ->). left. split.
      * assert (i < length (m_colorTargets rt))%nat by (apply nth_error_Some; congruence). lia.
      * now exists a, v.
  - intros fmt. unfold formatCalls. rewrite in_app_iff. split.
    + intros [Hc | Hd]; [exfalso; exact (colorCalls_no_depth _ _ _ _ Hc)|].
      unfold depthCalls in Hd. destruct (view (m_depthTarget rt)) as [v|]; [|contradiction].
      destruct Hd as [Hd | [Hd | []]]; [|discriminate]. injection Hd as <-. now exists v.
    + intros (v & Hv & ->). right. unfold depthCalls. rewrite Hv. now left.
Qed.

Section ConstructFacts.
Variable RenderPass : Type.
Variable VkRenderPass : Type.
Variable VkFramebuffer : Type.
Variable renderPassHandle : RenderPass -> VkRenderPass.
Variable vkCreateFramebuffer :
  VkFramebufferCreateInfo VkRenderPass VkImageView -> Z * VkFramebuffer.

(** X7.  For render targets with a colour array of [MaxNumRenderTargets]
    entries (fewer than [2^32 - 1]), the constructor never fails on an array
    index; it asks Vulkan for a framebuffer with exactly the handles of the
    bound views as attachments, their number as [attachmentCount], and the
    size of the first of them (zero without attachments); it throws the
    [DxvkError] exactly when [vkCreateFramebuffer] does not return
    [VK_SUCCESS], and otherwise keeps the size and the handle Vulkan wrote,
    which is the handle its destructor destroys. *)
Theorem construct_outcome (renderPass0 : RenderPass) (rt : DxvkRenderTargets) :
  length (m_colorTargets rt) = MaxNumRenderTargets ->
  (Z.of_nat MaxNumRenderTargets + 1 < 2 ^ 32)%Z ->
  let views := attachedViews rt in
  let size := match views with
              | v :: _ => renderTargetSize v
              | [] => {| fb_width := 0; fb_height := 0; fb_layers := 0 |}
              end in
  let info := {| sType := VK_STRUCTURE_TYPE_FRAMEBUFFER_CREATE_INFO;
                 pNext := None;
                 flags := 0;
                 renderPass := renderPassHandle renderPass0;
                 attachmentCount := Z.of_nat (length views);
                 pAttachments := map handle views;
                 ci_width := fb_width size;
                 ci_height := fb_height size;
                 ci_layers := fb_layers size |} in
  let outcome :=
    construct MaxNumRenderTargets handle renderPassHandle vkCreateFramebuffer renderPass0 rt in
  outcome <> ThrowsOutOfRange
  /\ (outcome = ThrowsDxvkError Messages.createFailed
      <-> fst (vkCreateFramebuffer info) <> VK_SUCCESS)
  /\ (forall fb, outcome = Constructed fb <->
        fst (vkCreateFramebuffer info) = VK_SUCCESS
        /\ fb = {| m_renderPass := renderPass0;
                   m_renderTargets := rt;
                   m_framebufferSize := size;
                   m_framebuffer := snd (vkCreateFramebuffer info) |})
  /\ (forall fb, outcome = Constructed fb -> destroyed fb = snd (vkCreateFramebuffer info)).
Proof.
  intros Hlen Hmax views size info outcome.
  assert (Hout : outcome
                 = if (fst (vkCreateFramebuffer info) =? VK_SUCCESS)%Z
                   then Constructed {| m_renderPass := renderPass0;
                                       m_renderTargets := rt;
                                       m_framebufferSize := size;
                                       m_framebuffer := snd (vkCreateFramebuffer info) |}
                   else ThrowsDxvkError Messages.createFailed).
  { subst outcome. unfold construct.
    rewrite (getImageSize_views rt Hlen), (getAttachments_views rt Hlen).
    fold views. fold size.
    assert (Hinfo : createInfo renderPassHandle renderPass0 size (map handle views) = info).
    { unfold createInfo. subst info. f_equal. rewrite length_map.
      apply Z.mod_small. pose proof (attachedViews_length rt) as Hl. fold views in Hl. lia. }
    rewrite Hinfo. destruct (vkCreateFramebuffer info) as [result framebuffer]. cbn [fst snd].
    destruct (result =? VK_SUCCESS)%Z; reflexivity. }
  rewrite Hout. destruct (fst (vkCreateFramebuffer info) =? VK_SUCCESS)%Z eqn:Hr.
  - apply Z.eqb_eq in Hr. refine (conj _ (conj _ (conj _ _))).
    + discriminate.
    + split; [discriminate|congruence].
    + intros fb. split; [intros [= <-]; now split|intros [_ ->]; reflexivity].
    + intros fb [= <-]. reflexivity.
  - apply Z.eqb_neq in Hr. refine (conj _ (conj _ (conj _ _))).
    + discriminate.
    + split; [intros _; exact Hr|reflexivity].
    + intros fb. split; [discriminate|intros [H _]; contradiction].
    + intros fb H. discriminate.
Qed.

End ConstructFacts.

End FramebufferFacts.

(* ===================================================================== *)
(** ** Further properties of the shader *)
(* ===================================================================== *)

(** A ray event of either kind. *)
Definition is_ray {F} (e : Event F) : bool :=
  is_reflection_ray e || is_visibility_revalidation e.

(** A debug-view event. *)
Definition is_debug {F} (e : Event F) : bool :=
  match e with
  | EvStoreInDebugView _ _ | EvAccumulateInDebugViewAnd _ _ => true
  | _ => false
  end.

(** The pixel an event writes, if it writes. *)
Definition written_pixel {F} (e : Event F) : option int2 :=
  match e with
  | EvStoreGIReservoir _ pixel _ | EvStoreInDebugView pixel _ | EvAccumulateInDebugViewAnd pixel _ =>
      Some pixel
  | _ => None
  end.

Section ShaderShape.
Context {F : Type} {SF : Scalar F} {IF : Intrinsics F} {U : RtxUtility F} {RM : ReservoirMethods F}
  {E : Externals F}.
Local Open Scope float_scope.

(** The reservoir mutators change nothing but the packed flags word. *)
Definition MethodsTouchOnlyFlags : Prop :=
  (forall p r, exists w, setPortalID p r = Reservoir.with_flagsAndVirtualFraction r w)
  /\ (forall x r, exists w, setVirtualFraction x r = Reservoir.with_flagsAndVirtualFraction r w).

Lemma shade_not_nil (thread_id : int2) (surface : RAB_Surface F) : shade thread_id surface <> [].
Proof.
  unfold shade.
  destruct (buildInitialSample _ _ _) as [initialSample ipl].
  destruct (reproject thread_id surface) as [naive rp].
  destruct (temporalResampling _ _ _) as [[[r0 rng'] sim] init].
  destruct (visibilityRevalidation _ _ _ _) as [r1 rays].
  discriminate.
Qed.

(** X8.  An invocation has no effect at all (no reservoir write, no ray,
    no debug output) exactly when its pixel lies outside the resolution in
    [x] or in [y], or the G-buffer surface of the pixel is invalid. *)
Theorem main_early_exit (thread_id : int2) :
  main thread_id = []
  <-> (fst thread_id >= fst (resolution (camera cb)))%Z
      \/ (snd thread_id >= snd (resolution (camera cb)))%Z
      \/ RAB_IsSurfaceValid (RAB_GetGBufferSurface thread_id false) = false.
Proof.
  unfold main.
  destruct (fst thread_id >=? fst (resolution (camera cb)))%Z eqn:Hx;
    [split; [intros _; left; lia|reflexivity]|].
  destruct (snd thread_id >=? snd (resolution (camera cb)))%Z eqn:Hy;
    [split; [intros _; right; left; lia|reflexivity]|].
  cbn [orb].
  destruct (RAB_IsSurfaceValid (RAB_GetGBufferSurface thread_id false)) eqn:Hv; cbn [negb].
  - split; [intros H; now apply shade_not_nil in H|].
    intros [H | [H | H]]; [lia|lia|discriminate].
  - split; [intros _; right; right; reflexivity|reflexivity].
Qed.

Lemma debugViewEvents_own_pixel (thread_id : int2) (s : ReSTIRGI_Reservoir F) (sim : bool) (w : F) :
  Forall (fun e => written_pixel e = Some thread_id) (debugViewEvents thread_id s sim w)
  /\ filter is_debug (debugViewEvents thread_id s sim w) = debugViewEvents thread_id s sim w
  /\ (length (debugViewEvents thread_id s sim w) <= 1)%nat.
Proof.
  unfold debugViewEvents.
  repeat match goal with |- context [if ?b then _ else _] => destruct b end;
    (refine (conj _ (conj _ _)); [repeat constructor|reflexivity|cbn; lia]).
Qed.

(** X9.  Every write of an invocation, to a reservoir page or to the debug
    view, goes to the invocation's own pixel; reservoirs go to the
    initial-sample page and the temporal output page only, and an
    invocation writes either no reservoir or exactly two, the first to the
    initial-sample page and the second to the temporal output page. *)
Theorem main_writes_own_pixel (thread_id : int2) :
  Forall (fun e => match written_pixel e with Some pixel => pixel = thread_id | None => True end)
         (main thread_id)
  /\ (filter is_store (main thread_id) = []
      \/ exists r0 r1,
           filter is_store (main thread_id)
           = [EvStoreGIReservoir r0 thread_id ReSTIRGI_GetInitSamplePage;
              EvStoreGIReservoir r1 thread_id ReSTIRGI_GetTemporalOutputPage]).
Proof.
  unfold main.
  destruct (_ || _); [split; [constructor|now left]|].
  destruct (negb _); [split; [constructor|now left]|].
  set (surface := RAB_GetGBufferSurface thread_id false).
  split.
  - unfold shade.
    destruct (buildInitialSample _ _ _) as [initialSample ipl].
    destruct (reproject thread_id surface) as [naive rp] eqn:Hrp.
    destruct (temporalResampling _ _ _) as [[[r0 rng'] sim] init].
    pose proof (visibilityRevalidation_events surface r0 sim init) as Hev.
    destruct (visibilityRevalidation _ _ _ _) as [r1 rays]. cbn [snd] in Hev.
    pose proof (reflectionReprojection_events thread_id surface (reflectionWeightOf surface)
                  (nr_prevPixelCenter (naiveReprojection thread_id surface))
                  (nr_depthThreshold (naiveReprojection thread_id surface))
                  (RAB_InitRandomSampler thread_id (frameIdx cb) 2%Z)) as Hre.
    change (reflectionReprojection _ _ _ _ _ _) with (snd (reproject thread_id surface)) in Hre.
    rewrite Hrp in Hre. cbn [snd] in Hre.
    repeat (apply Forall_app; split).
    + repeat constructor.
    + rewrite Hre. destruct (reflectionReprojectionEnabled _ _ _); repeat constructor.
    + rewrite Hev. destruct (revalidationEnabled sim init); repeat constructor.
    + repeat constructor.
    + destruct (debugViewEvents_own_pixel thread_id initialSample sim (rp_reflectionReprojectionWeight rp))
        as [Hd _].
      eapply Forall_impl; [|exact Hd]. intros e He. rewrite He. reflexivity.
  - right. rewrite shade_stores. cbv zeta.
    destruct (temporalResampling _ _ _) as [[[r0 rng'] sim] init].
    eexists _, _. reflexivity.
Qed.

(** X10.  A shaded pixel traces at most two rays: first the reflection ray
    of the current surface, when the reflection-reprojection block is
    entered, then the sample-visibility ray, when the visibility update
    runs; the visibility ray is traced from the current surface to itself
    for the reservoir the resampler returned, before its flag is updated. *)
Theorem shade_ray_budget (thread_id : int2) (surface : RAB_Surface F) :
  let initialSample := fst (buildInitialSample thread_id surface (geometryFlagsReadFromGBuffer thread_id)) in
  let '(r0, _, sim, init) := temporalResampling thread_id surface initialSample in
  filter is_ray (shade thread_id surface)
  = (if reflectionReprojectionEnabled thread_id (reflectionWeightOf surface)
          (nr_prevPixelCenter (naiveReprojection thread_id surface))
     then [EvTraceVisibilityRay (reflectionRayQuery surface)] else [])
    ++ (if revalidationEnabled sim init
        then [EvTraceGISampleVisibility surface surface r0 (numActiveRayPortals cb)] else [])
  /\ (length (filter is_ray (shade thread_id surface)) <= 2)%nat.
Proof.
  cbv zeta. unfold shade.
  destruct (buildInitialSample _ _ _) as [initialSample ipl].
  destruct (reproject thread_id surface) as [naive rp] eqn:Hrp.
  cbn [fst].
  destruct (temporalResampling _ _ _) as [[[r0 rng'] sim] init].
  pose proof (visibilityRevalidation_events surface r0 sim init) as Hev.
  destruct (visibilityRevalidation _ _ _ _) as [r1 rays]. cbn [snd] in Hev.
  pose proof (reflectionReprojection_events thread_id surface (reflectionWeightOf surface)
                (nr_prevPixelCenter (naiveReprojection thread_id surface))
                (nr_depthThreshold (naiveReprojection thread_id surface))
                (RAB_InitRandomSampler thread_id (frameIdx cb) 2%Z)) as Hre.
  change (reflectionReprojection _ _ _ _ _ _) with (snd (reproject thread_id surface)) in Hre.
  rewrite Hrp in Hre. cbn [snd] in Hre.
  assert (Hd : filter is_ray (debugViewEvents thread_id initialSample sim
                                (rp_reflectionReprojectionWeight rp)) = []).
  { unfold debugViewEvents.
    repeat match goal with |- context [if ?b then _ else _] => destruct b end; reflexivity. }
  cbn [app filter is_ray is_reflection_ray is_visibility_revalidation orb].
  rewrite !filter_app. cbn [filter is_ray is_reflection_ray is_visibility_revalidation orb].
  rewrite Hd, Hre, Hev, app_nil_r.
  destruct (reflectionReprojectionEnabled _ _ _), (revalidationEnabled sim init);
    cbn; split; try reflexivity; lia.
Qed.

(** X11.  On every path the virtual fraction is first reset to 0.0, and
    the sample is changed further only when all four conditions hold:
    virtual samples are enabled, the roughness exceeds
    [RAB_RESTIR_GI_DELTA_ROUGHNESS], the surface-to-hit direction is
    nonzero, and the indirect path length exceeds 1.01 times its length. *)
Theorem virtual_sample_only_when (surface : RAB_Surface F) (indirectPathLength : F)
    (s : ReSTIRGI_Reservoir F) :
  let s0 := setVirtualFraction (lit 0 1) s in
  let direction :=
    sub3 (Reservoir.position s0) (Surface.position (Surface.minimalSurfaceInteraction surface)) in
  virtualSample surface indirectPathLength s <> s0 ->
  (enableReSTIRGIVirtualSample cb > 0)%Z
  /\ (Surface.isotropicRoughness (Surface.opaqueSurfaceMaterialInteraction surface)
        >? RAB_RESTIR_GI_DELTA_ROUGHNESS) = true
  /\ any_nonzero3 direction = true
  /\ (indirectPathLength >? length3 direction * lit 101 100) = true.
Proof.
  cbv zeta. unfold virtualSample. intros Hne.
  destruct (enableReSTIRGIVirtualSample cb >? 0)%Z eqn:He; [|cbn in Hne; congruence].
  destruct (flt RAB_RESTIR_GI_DELTA_ROUGHNESS _) eqn:Hr; [|cbn in Hne; congruence].
  cbn [andb] in Hne.
  destruct (any_nonzero3 _) eqn:Hd; [|cbn in Hne; congruence].
  destruct (flt _ indirectPathLength) eqn:Hl; [|cbn in Hne; congruence].
  apply Z.gtb_lt in He. repeat split; try reflexivity; lia.
Qed.

(** X13.  Inside the reflection-reprojection block, when the distance
    between the reflection-based and the naive target is below
    [cb.restirGIReflectionMinParallax], no random number is drawn and the
    target is interpolated from the naive toward the reflection-based one
    by the reflection weight times [saturate(distance / minParallax)];
    the naive target is the backup, and thresholds and the
    discard-enlarged-pixels flag stay as they were. *)
Theorem reflection_target_interpolation (thread_id : int2) (surface : RAB_Surface F)
    (reflectionWeight : F) (prevPixelCenter depthThreshold : vec2 F) (rng : RngState) :
  let rp := reflectionReprojection thread_id surface reflectionWeight prevPixelCenter depthThreshold rng in
  let prevReflectionCenter := prevReflectionCenterOf surface in
  let reprojectionDistance := length2 (sub2 prevReflectionCenter prevPixelCenter) in
  let weight :=
    reflectionWeight * saturate (reprojectionDistance / restirGIReflectionMinParallax cb) in
  reflectionReprojectionEnabled thread_id reflectionWeight prevPixelCenter = true ->
  (reprojectionDistance <? restirGIReflectionMinParallax cb) = true ->
  rp_prevPixelCenter rp
  = Vec2 (v2x prevPixelCenter + (v2x prevReflectionCenter - v2x prevPixelCenter) * weight)
         (v2y prevPixelCenter + (v2y prevReflectionCenter - v2y prevPixelCenter) * weight)
  /\ rp_reflectionReprojectionWeight rp = weight
  /\ rp_prevBackupPixelCenter rp = prevPixelCenter
  /\ rp_rng rp = rng
  /\ rp_depthThreshold rp = depthThreshold
  /\ rp_discardEnlargedPixels rp = enableReSTIRGIDiscardEnlargedPixels cb.
Proof.
  cbv zeta. intros Hon Hnear. unfold reflectionReprojection. rewrite Hon, Hnear.
  repeat split.
Qed.

(** X14.  Whatever the reflection reprojection decides, it never changes
    the [y] depth threshold, changes the [x] depth threshold only to 0.25,
    never switches discard-enlarged-pixels on when the constant buffer has
    it off, leaves the backup coordinate at the sentinel -1 or sets it to
    the naive target, and draws at most one number from the random
    stream. *)
Theorem reflection_reprojection_frame (thread_id : int2) (surface : RAB_Surface F)
    (reflectionWeight : F) (prevPixelCenter depthThreshold : vec2 F) (rng : RngState) :
  let rp := reflectionReprojection thread_id surface reflectionWeight prevPixelCenter depthThreshold rng in
  v2y (rp_depthThreshold rp) = v2y depthThreshold
  /\ (v2x (rp_depthThreshold rp) = v2x depthThreshold \/ v2x (rp_depthThreshold rp) = lit 25 100)
  /\ (rp_discardEnlargedPixels rp = true -> enableReSTIRGIDiscardEnlargedPixels cb = true)
  /\ (rp_prevBackupPixelCenter rp = splat2 (of_int (-1))
      \/ rp_prevBackupPixelCenter rp = prevPixelCenter)
  /\ (rp_rng rp = rng \/ rp_rng rp = snd (RAB_GetNextRandom rng)).
Proof.
  cbv zeta. unfold reflectionReprojection.
  destruct (reflectionReprojectionEnabled _ _ _); [|cbn; tauto].
  destruct (flt _ (restirGIReflectionMinParallax cb)); [cbn; tauto|].
  destruct (RAB_GetNextRandom rng) as [u rng']. cbn [snd].
  destruct (flt u reflectionWeight); cbn; intuition discriminate.
Qed.

Lemma portalTransform_frame (portalID : Z) (s : ReSTIRGI_Reservoir F) :
  exists position normal,
    portalTransform portalID s
    = Reservoir.Build position normal (Reservoir.radiance s) (Reservoir.avgWeight s)
        (Reservoir.M s) (Reservoir.flagsAndVirtualFraction s).
Proof.
  unfold portalTransform.
  destruct (negb _); [|destruct s; eexists _, _; reflexivity].
  destruct (rayPortalHitInfoIsActive _); destruct s; eexists _, _; reflexivity.
Qed.

Lemma virtualSample_frame (surface : RAB_Surface F) (ipl : F) (s : ReSTIRGI_Reservoir F) :
  MethodsTouchOnlyFlags ->
  exists position normal w,
    virtualSample surface ipl s
    = Reservoir.Build position normal (Reservoir.radiance s) (Reservoir.avgWeight s)
        (Reservoir.M s) w.
Proof.
  intros [_ Hv]. unfold virtualSample.
  destruct (Hv (lit 0 1) s) as [w0 H0]. rewrite H0.
  destruct (_ && _); [|destruct s; eexists _, _, _; reflexivity].
  destruct (_ && _); [|destruct s; eexists _, _, _; reflexivity].
  match goal with |- context [setVirtualFraction ?x ?r] => destruct (Hv x r) as [w1 H1]; rewrite H1 end.
  destruct s; eexists _, _, _; reflexivity.
Qed.

(** X15.  With reservoir mutators that change only the packed flags word,
    the geometry stages of the Candidate Builder (portal transform and
    virtual sample) never touch the radiance or the weights: the initial
    sample carries exactly the firefly-filtered radiance, [avgWeight = 1]
    and [M = 1]. *)
Theorem initial_sample_radiance_and_weights (thread_id : int2) (surface : RAB_Surface F)
    (geometryFlags : GeometryFlags) :
  MethodsTouchOnlyFlags ->
  let initialSample := fst (buildInitialSample thread_id surface geometryFlags) in
  Reservoir.radiance initialSample
  = fst (initialRadiance (primarySelectedIntegrationSurface geometryFlags)
           (RestirGIRadiance thread_id) (fireflyFilteringLuminanceThreshold cb))
  /\ Reservoir.avgWeight initialSample = of_int 1
  /\ Reservoir.M initialSample = 1%Z
  /\ snd (buildInitialSample thread_id surface geometryFlags)
     = snd (initialRadiance (primarySelectedIntegrationSurface geometryFlags)
              (RestirGIRadiance thread_id) (fireflyFilteringLuminanceThreshold cb)).
Proof.
  intros HM. cbv zeta. unfold buildInitialSample.
  destruct (initialRadiance _ _ _) as [radiance ipl].
  destruct (ReSTIRGI_LoadHitGeometry thread_id) as [[position normal] portalID].
  cbn [fst snd].
  destruct (proj1 HM portalID (Reservoir.Build position normal radiance (of_int 1) 1%Z 0%Z)) as [w Hp].
  rewrite Hp.
  destruct (portalTransform_frame portalID
              (Reservoir.with_flagsAndVirtualFraction
                 (Reservoir.Build position normal radiance (of_int 1) 1%Z 0%Z) w)) as (p1 & n1 & Ht).
  rewrite Ht.
  match goal with |- context [virtualSample surface ipl ?r] =>
    destruct (@virtualSample_frame surface ipl r HM) as (p2 & n2 & w2 & Hv) end.
  rewrite Hv. cbn. repeat split.
Qed.

(** X16.  A shaded pixel produces at most one debug-view output: none when
    [cb.debugView] selects none of the three views of this pass, and for the
    initial-sample view the radiance of the initial sample, also when
    temporal reuse replaced or kept it. *)
Theorem shade_debug_output (thread_id : int2) (surface : RAB_Surface F) :
  let initialSample := fst (buildInitialSample thread_id surface (geometryFlagsReadFromGBuffer thread_id)) in
  (length (filter is_debug (shade thread_id surface)) <= 1)%nat
  /\ (debugView cb <> DEBUG_VIEW_RESTIR_GI_INITIAL_SAMPLE ->
      debugView cb <> DEBUG_VIEW_RESTIR_GI_TEMPORAL_REUSE ->
      debugView cb <> DEBUG_VIEW_NAN ->
      filter is_debug (shade thread_id surface) = [])
  /\ (debugView cb = DEBUG_VIEW_RESTIR_GI_INITIAL_SAMPLE ->
      filter is_debug (shade thread_id surface)
      = [EvStoreInDebugView thread_id (Reservoir.radiance initialSample)]).
Proof.
  cbv zeta.
  assert (Hsh : exists sim w,
            filter is_debug (shade thread_id surface)
            = debugViewEvents thread_id
                (fst (buildInitialSample thread_id surface (geometryFlagsReadFromGBuffer thread_id)))
                sim w).
  { unfold shade.
    destruct (buildInitialSample _ _ _) as [initialSample ipl].
    destruct (reproject thread_id surface) as [naive rp] eqn:Hrp.
    cbn [fst].
    destruct (temporalResampling _ _ _) as [[[r0 rng'] sim] init].
    pose proof (visibilityRevalidation_events surface r0 sim init) as Hev.
    destruct (visibilityRevalidation _ _ _ _) as [r1 rays]. cbn [snd] in Hev.
    pose proof (reflectionReprojection_events thread_id surface (reflectionWeightOf surface)
                  (nr_prevPixelCenter (naiveReprojection thread_id surface))
                  (nr_depthThreshold (naiveReprojection thread_id surface))
                  (RAB_InitRandomSampler thread_id (frameIdx cb) 2%Z)) as Hre.
    change (reflectionReprojection _ _ _ _ _ _) with (snd (reproject thread_id surface)) in Hre.
    rewrite Hrp in Hre. cbn [snd] in Hre.
    exists sim, (rp_reflectionReprojectionWeight rp).
    cbn [app filter is_debug]. rewrite !filter_app. cbn [filter is_debug].
    destruct (debugViewEvents_own_pixel thread_id initialSample sim (rp_reflectionReprojectionWeight rp))
      as (_ & Hf & _).
    rewrite Hf, Hre, Hev.
    destruct (reflectionReprojectionEnabled _ _ _), (revalidationEnabled sim init); reflexivity. }
  destruct Hsh as (sim & w & ->).
  refine (conj _ (conj _ _)).
  - apply debugViewEvents_own_pixel.
  - intros H1 H2 H3. unfold debugViewEvents.
    apply Z.eqb_neq in H1, H2, H3. now rewrite H1, H2, H3.
  - intros H1. unfold debugViewEvents. rewrite H1, Z.eqb_refl. reflexivity.
Qed.

End ShaderShape.

Section FramebufferExamples.
Import Dxvk Framebuffer.

(** Handles, formats, layouts and sample counts read off the view: the
    width of mip level 0 as handle, the layer count as format, the height as
    image layout, and a sample count of 4 for [view320], 8 for [view640]. *)
Definition widthHandle (v : DxvkImageView) : Z := width (mipLevelExtent v 0).
Definition layersFormat (v : DxvkImageView) : Z := numLayers v.
Definition heightLayout (v : DxvkImageView) : Z := height (mipLevelExtent v 0).
Definition widthSamples (v : DxvkImageView) : Z := width (mipLevelExtent v 0) / 80.

(** A device that accepts exactly three attachments and hands out the
    width as framebuffer handle. *)
Definition threeAttachmentDevice (info : VkFramebufferCreateInfo Z Z) : Z * Z :=
  (if attachmentCount info =? 3 then VK_SUCCESS else -1, ci_width info).

Lemma getAttachments_bound_views_witness :
  getAttachments 8 widthHandle depthAndColors = Some [320; 640; 640].
Proof.
  destruct (@getAttachments_bound_views 8 Z widthHandle depthAndColors eq_refl) as [H _].
  exact H.
Defined.

Lemma hasAttachments_iff_attachments_witness :
  hasAttachments 8 depthAndColors = Some true.
Proof.
  destruct (@hasAttachments_iff_attachments 8 Z widthHandle depthAndColors eq_refl) as [[_ H] _].
  apply H. exists 320, [640; 640]. reflexivity.
Defined.

Lemma image_size_of_first_attachment_witness :
  getAttachments 8 widthHandle depthAndColors = Some [320; 640; 640]
  /\ getImageSize 8 depthAndColors = Some {| fb_width := 320; fb_height := 240; fb_layers := 1 |}.
Proof.
  exact (@image_size_of_first_attachment 8 Z widthHandle depthAndColors eq_refl).
Defined.

Lemma renderPassFormat_calls_witness :
  renderPassFormat 8 layersFormat heightLayout widthSamples []
    (fun i fmt log => log ++ [SetColorFormat i fmt])
    (fun s log => log ++ [SetSampleCount s])
    (fun fmt log => log ++ [SetDepthFormat fmt]) depthAndColors
  = Some [SetColorFormat 2 {| rtf_format := 6; rtf_initialLayout := 480; rtf_finalLayout := 480;
                              rtf_layout := 2 |};
          SetSampleCount 8;
          SetColorFormat 5 {| rtf_format := 6; rtf_initialLayout := 480; rtf_finalLayout := 480;
                              rtf_layout := 2 |};
          SetSampleCount 8;
          SetDepthFormat {| rtf_format := 1; rtf_initialLayout := 240; rtf_finalLayout := 240;
                            rtf_layout := 3 |};
          SetSampleCount 4].
Proof.
  destruct (@renderPassFormat_calls 8 layersFormat heightLayout widthSamples (list FormatCall) []
              (fun i fmt log => log ++ [SetColorFormat i fmt])
              (fun s log => log ++ [SetSampleCount s])
              (fun fmt log => log ++ [SetDepthFormat fmt]) depthAndColors eq_refl) as [H _].
  exact H.
Defined.

Lemma sample_count_precedence_witness :
  exists calls,
    renderPassFormatLog 8 layersFormat heightLayout widthSamples depthAndColors = Some calls
    /\ finalSampleCount calls None = Some 4.
Proof.
  exact (@sample_count_precedence 8 layersFormat heightLayout widthSamples depthAndColors eq_refl).
Defined.

Lemma formats_of_bound_targets_witness :
  exists calls,
    renderPassFormatLog 8 layersFormat heightLayout widthSamples depthAndColors = Some calls
    /\ In (SetColorFormat 5 {| rtf_format := 6; rtf_initialLayout := 480; rtf_finalLayout := 480;
                               rtf_layout := 2 |}) calls
    /\ In (SetDepthFormat {| rtf_format := 1; rtf_initialLayout := 240; rtf_finalLayout := 240;
                             rtf_layout := 3 |}) calls.
Proof.
  destruct (@formats_of_bound_targets 8 layersFormat heightLayout widthSamples depthAndColors eq_refl)
    as (calls & Hlog & Hcolor & Hdepth).
  exists calls. refine (conj Hlog (conj _ _)).
  - apply Hcolor. exists {| view := Some view640; layout := 2 |}, view640.
    refine (conj _ (conj _ _)); reflexivity.
  - apply Hdepth. exists view320. split; reflexivity.
Defined.

Lemma construct_outcome_witness :
  construct 8 widthHandle (fun renderPass0 : Z => renderPass0) threeAttachmentDevice 7 depthAndColors
  = Constructed {| m_renderPass := 7;
                   m_renderTargets := depthAndColors;
                   m_framebufferSize := {| fb_width := 320; fb_height := 240; fb_layers := 1 |};
                   m_framebuffer := 320 |}.
Proof.
  destruct (@construct_outcome 8 Z widthHandle Z Z Z (fun renderPass0 : Z => renderPass0)
              threeAttachmentDevice 7 depthAndColors eq_refl eq_refl) as (_ & _ & H & _).
  apply H. split; reflexivity.
Defined.

End FramebufferExamples.

(* ===================================================================== *)
(** ** The virtual sample on binary32 *)
(* ===================================================================== *)

Section Binary32Facts.
Import Binary32.
#[local] Existing Instance Binary32.scalar.
#[local] Existing Instance Binary32.intrinsics.
Context {U : RtxUtility float} {RM : ReservoirMethods float} {E : Externals float}.
Local Open Scope float_scope.

(** Not a negative number and not negative infinity (zeros of both signs
    and NaN pass). *)
Definition not_negative (x : float) : bool :=
  match x with
  | S754_finite true _ _ | S754_infinity true => false
  | _ => true
  end.

Lemma binary_round_aux_not_negative (mx ex : Z) (lx : location) :
  not_negative (binary_round_aux prec emax false mx ex lx) = true.
Proof.
  unfold binary_round_aux.
  destruct (shr_fexp prec emax mx ex lx) as [mrs' e'].
  destruct (shr_fexp prec emax _ e' loc_Exact) as [mrs'' e''].
  destruct (shr_m mrs''); [reflexivity| |reflexivity].
  destruct (e'' <=? emax - prec)%Z; reflexivity.
Qed.

Lemma SFsqrt_not_negative (x : float) : not_negative (SFsqrt prec emax x) = true.
Proof.
  destruct x as [s|s| |s m e]; try destruct s; try reflexivity.
  unfold SFsqrt. destruct (SFsqrt_core_binary prec emax (Z.pos m) e) as [[mz ez] lz].
  apply binary_round_aux_not_negative.
Qed.

Lemma SFmul_not_negative (x : float) (m : positive) (e : Z) :
  not_negative x = true -> not_negative (SFmul prec emax x (S754_finite false m e)) = true.
Proof.
  destruct x as [s|s| |s mx ex]; try destruct s; try discriminate; try reflexivity.
  intros _. apply binary_round_aux_not_negative.
Qed.

Lemma SFltb_not_negative (x y : float) :
  not_negative x = true -> SFltb (S754_zero false) y = false -> SFltb x y = false.
Proof.
  destruct x as [sx|sx| |sx mx ex]; try destruct sx; try discriminate;
    destruct y as [sy|sy| |sy my ey]; try destruct sy; try discriminate; reflexivity.
Qed.

Lemma virtualSample_not_positive (surface : RAB_Surface float) (indirectPathLength : float)
    (s : ReSTIRGI_Reservoir float) :
  (of_int 0 <? indirectPathLength) = false ->
  virtualSample surface indirectPathLength s = setVirtualFraction (lit 0 1) s.
Proof.
  intros Hle. unfold virtualSample.
  destruct (_ && _); [|reflexivity].
  match goal with |- context [flt ?a indirectPathLength] =>
    assert (Hlt : flt a indirectPathLength = false) end.
  { apply SFltb_not_negative; [|exact Hle].
    change (lit 101 100) with (literal 101 100).
    replace (literal 101 100) with (S754_finite false 8472494 (-23)) by (vm_compute; reflexivity).
    apply SFmul_not_negative. unfold length3. apply SFsqrt_not_negative. }
  rewrite Hlt, andb_false_r. reflexivity.
Qed.

(** X12.  On binary32 the virtual sample needs a positive indirect path
    length: for a path length that is zero, negative or NaN the sample only
    has its virtual fraction reset to 0.0, whatever the surface, the hit
    point and the constants.  So a pixel without a primary selected
    integration sample (path length 0) never gets a virtual sample: its
    initial sample is the loaded hit geometry after the portal stage. *)
Theorem virtual_sample_needs_positive_path_length :
  (forall surface indirectPathLength s,
     (of_int 0 <? indirectPathLength) = false ->
     virtualSample surface indirectPathLength s = setVirtualFraction (lit 0 1) s)
  /\ (forall thread_id surface geometryFlags,
        primarySelectedIntegrationSurface geometryFlags = false ->
        let '(position, normal, portalID) := ReSTIRGI_LoadHitGeometry thread_id in
        let radiance :=
          fireflyFiltering (splat3 (of_int 0))
            (fireflyFilteringLuminanceThreshold cb * of_int 30) in
        buildInitialSample thread_id surface geometryFlags
        = (setVirtualFraction (lit 0 1)
             (portalTransform portalID
                (setPortalID portalID
                   (Reservoir.Build position normal radiance (of_int 1) 1%Z 0%Z))),
           of_int 0)).
Proof.
  split; [exact virtualSample_not_positive|].
  intros thread_id surface geometryFlags Hp.
  unfold buildInitialSample, initialRadiance. rewrite Hp.
  destruct (ReSTIRGI_LoadHitGeometry thread_id) as [[position normal] portalID].
  cbv zeta. rewrite virtualSample_not_positive by reflexivity. reflexivity.
Qed.

End Binary32Facts.

Section ThresholdRange.
Import Exact.
Local Open Scope Q_scope.


End ThresholdRange.

Section ShaderExamples.
Import Binary32 Scene.
#[local] Existing Instance utility.
#[local] Existing Instance methods.

(** The constant buffer of the mirror scene with a parallax threshold of
    four pixels. *)
Definition wideParallax : Constants float PortalInfo := {|
  camera := {| resolution := (16, 16); prevWorldToProjection := prevProjection |};
  frameIdx := 7;
  fireflyFilteringLuminanceThreshold := f 1 1;
  rayPortalHitInfos := fun _ => {| pi_active := false; pi_matrix := translate123 |};
  numActiveRayPortals := 2;
  teleportationPortalIndex := 0;
  enableReSTIRGIVirtualSample := 1;
  enableReSTIRGIReflectionReprojection := 1;
  enableReSTIRGIDiscardEnlargedPixels := true;
  restirGIReflectionMinParallax := f 4 1;
  temporalHistoryLength := 30;
  enableReSTIRGITemporalJacobian := true;
  enableReSTIRGITemporalBiasCorrection := true;
  enableReSTIRGIPermutationSampling := false;
  enableReSTIRGITemporalReuse := true;
  permutationSamplingSize := 2;
  uniformRandomNumber := 12345;
  reSTIRGIBiasCorrectionMode := 3;
  debugView := 0
|}.

(** The mirror at rest under that constant buffer. *)
Definition nearMirror : Setup := with_cb fixedMirror wideParallax.

Lemma scene_methods_touch_only_flags : MethodsTouchOnlyFlags (RM := methods).
Proof. split; intros; eexists; reflexivity. Qed.

(** On the rough surface of the scene the virtual sample is taken, and the
    four conditions hold. *)
Lemma virtual_sample_only_when_witness :
  let surface := s_surface (rough false) in
  let direction :=
    sub3 (Reservoir.position (setVirtualFraction (lit 0 1) loadedSample))
         (Surface.position (Surface.minimalSurfaceInteraction surface)) in
  (enableReSTIRGIVirtualSample (cb (Externals := externals (rough false))) > 0)%Z
  /\ flt (RAB_RESTIR_GI_DELTA_ROUGHNESS (Externals := externals (rough false)))
         (Surface.isotropicRoughness (Surface.opaqueSurfaceMaterialInteraction surface)) = true
  /\ any_nonzero3 direction = true
  /\ flt (fmul (length3 direction) (lit 101 100)) (f 2 1) = true.
Proof.
  cbv zeta.
  apply (@virtual_sample_only_when float _ _ methods (externals (rough false))
           (s_surface (rough false)) (f 2 1) loadedSample).
  vm_compute. discriminate.
Defined.

(** With a parallax threshold of four pixels, the naive target (10.5, 8.5)
    and the reflection-based one (12.5, 8.5) of the mirror at rest are
    interpolated with weight 1 * (2 / 4): the target is (11.5, 8.5), no
    random number is drawn and the thresholds stay. *)
Lemma reflection_target_interpolation_witness :
  let rp := snd (reproject (E := externals nearMirror) pixel (s_surface nearMirror)) in
  rp_prevPixelCenter rp = Vec2 (f 23 2) (f 17 2)
  /\ rp_reflectionReprojectionWeight rp = f 1 2
  /\ rp_prevBackupPixelCenter rp = Vec2 (f 21 2) (f 17 2)
  /\ rp_rng rp = O
  /\ rp_depthThreshold rp = splat2 (f 1 100)
  /\ rp_discardEnlargedPixels rp = true.
Proof.
  cbv zeta.
  pose proof (@reflection_target_interpolation float _ _ (externals nearMirror) pixel
                (s_surface nearMirror) (f 1 1) (Vec2 (f 21 2) (f 17 2)) (splat2 (f 1 100)) O) as H.
  cbv zeta in H.
  destruct H as (Hc & Hw & Hb & Hr & Hd & He); [vm_compute; reflexivity|vm_compute; reflexivity|].
  refine (conj _ (conj _ (conj _ (conj _ (conj _ _))))).
  - etransitivity; [exact Hc|]. vm_compute. reflexivity.
  - etransitivity; [exact Hw|]. vm_compute. reflexivity.
  - etransitivity; [exact Hb|]. vm_compute. reflexivity.
  - etransitivity; [exact Hr|]. reflexivity.
  - etransitivity; [exact Hd|]. vm_compute. reflexivity.
  - etransitivity; [exact He|]. reflexivity.
Defined.

(** The candidate of the mirror scene carries the filtered radiance with
    unit weights. *)
Lemma initial_sample_radiance_and_weights_witness :
  let initialSample :=
    fst (buildInitialSample (E := externals (mirror false)) pixel (s_surface (mirror false))
           {| primarySelectedIntegrationSurface := true |}) in
  Reservoir.radiance initialSample = v3 (f 1 2) (f 1 2) (f 1 2)
  /\ Reservoir.avgWeight initialSample = f 1 1
  /\ Reservoir.M initialSample = 1%Z.
Proof.
  cbv zeta.
  destruct (@initial_sample_radiance_and_weights float _ _ utility methods (externals (mirror false))
              pixel (s_surface (mirror false)) {| primarySelectedIntegrationSurface := true |}
              scene_methods_touch_only_flags) as (Hr & Hw & Hm & _).
  refine (conj _ (conj _ _)).
  - etransitivity; [exact Hr|]. vm_compute. reflexivity.
  - etransitivity; [exact Hw|]. vm_compute. reflexivity.
  - exact Hm.
Defined.

End ShaderExamples.
